(** * Simulation playback of the rail dashboard: session state, log queries,
      playback control and position interpolation.

    Shallow embedding of
      - [frontend simulation/src/services/simulationApi.ts]
          (modules [TrainInput], [SimulationRequest], [SimulationLog],
           [SimulationMetrics], [SimulationResponse]),
      - [frontend simulation/src/contexts/SimulationContext.tsx]
          (module [SimulationContext]),
      - [frontend simulation/src/components/simulation/SimulationControl.tsx]
          (module [SimulationControl]),
      - [frontend simulation/src/components/operations/NetworkMap.tsx]
          (module [NetworkMap]).

    Numbers of the session and of the control.  The numbers that the
    session holds come out of JSON or out of the handlers, so they are
    finite binary64 values; such a number is modelled by the rational [Q]
    it denotes.  Comparisons ([<], [>=]), [Math.abs] and [Math.max] are
    exact on binary64 values and are the exact operations of [Q].  Each
    arithmetic operation ([-], [+], [*]) is the exact operation followed by
    [fl], the rounding of binary64 (to nearest, ties to even, 53 bits,
    gradual underflow).  A result beyond the binary64 range, which the
    machine turns into an infinity, is left as the finite number [fl]
    gives; the test [Math.abs(log.time - time) < 1] fails on both.

    Numbers of the network map.  The position update only computes and
    stores coordinates; they are taken as binary64 values themselves, the
    primitive [float] with its [+], [-], [*] and [/].

    React state.  A [useState] cell is a field of a record; a functional
    update [setState(prev => ...)] is a function from the previous record to
    the next one; an [await] splits a callback into the part before and the
    part after the promise settles. *)

From Stdlib Require Import QArith Qabs Qminmax Lqa.
From stdpp Require Import gmap strings list.
From Stdlib Require Import PrimFloat.
From Stdlib Require SpecFloat FloatOps Uint63.

(** ** Values of type [any] *)

(** [network: any] holds whatever the solver returned as JSON. *)
#[local] Unset Elimination Schemes.
Inductive json : Type :=
  | JNull
  | JBool (b : bool)
  | JNum (q : Q)
  | JStr (s : string)
  | JArr (items : list json)
  | JObj (fields : list (string * json)).
#[local] Set Elimination Schemes.

(** ** Comparisons of numbers as the source writes them *)

(** [a < b] *)
Definition Qltb (a b : Q) : bool :=
  match (a ?= b)%Q with Lt => true | _ => false end.

(** [a >= b] *)
Definition Qgeb (a b : Q) : bool := Qle_bool b a.

(** ** The rounding of binary64 *)

(** [floor (log2 (n / d))]: the exponent of the binade of [n / d]. *)
Definition log2_floor (n d : positive) : Z :=
  let l := (Z.log2 (Zpos n) - Z.log2 (Zpos d))%Z in
  if (0 <=? l)%Z
  then if (Zpos d * 2 ^ l <=? Zpos n)%Z then l else (l - 1)%Z
  else if (Zpos d <=? Zpos n * 2 ^ (- l))%Z then l else (l - 1)%Z.

(** The integer nearest to [N / D]; of two nearest ones, the even one. *)
Definition nearest_even (N : Z) (D : positive) : Z :=
  let f := (N / Zpos D)%Z in
  let r := (N mod Zpos D)%Z in
  match (2 * r ?= Zpos D)%Z with
  | Lt => f
  | Gt => (f + 1)%Z
  | Eq => if Z.even f then f else (f + 1)%Z
  end.

(** The binary64 value nearest to the positive rational [n / d]: a multiple
    of [2 ^ e], where [e] leaves 53 bits to the significand and is at least
    the exponent -1074 of the subnormal numbers. *)
Definition fl_pos (n d : positive) : Q :=
  let e := Z.max (log2_floor n d - 52) (-1074) in
  if (0 <=? e)%Z
  then inject_Z (nearest_even (Zpos n) (d * Z.to_pos (2 ^ e)) * 2 ^ e)
  else (nearest_even (Zpos n * 2 ^ (- e)) d # Z.to_pos (2 ^ (- e)))%Q.

(** The rounding that follows every arithmetic operation. *)
Definition fl (q : Q) : Q :=
  match Qnum q with
  | Z0 => 0%Q
  | Zpos n => fl_pos n (Qden q)
  | Zneg n => Qopp (fl_pos n (Qden q))
  end.

(** The midpoint of 1 and the binary64 value just before it,
    [1 - 2 ^ -54]: a number rounds to a magnitude below 1 exactly when its
    magnitude is below this midpoint (at the midpoint itself the tie goes
    to 1, whose significand is even). *)
Definition below_one : Q := (18014398509481983 # 18014398509481984)%Q.

(** The rational that a finite binary64 value denotes. *)
Definition Qof (f : float) : option Q :=
  match FloatOps.Prim2SF f with
  | SpecFloat.S754_zero _ => Some 0%Q
  | SpecFloat.S754_finite s m e =>
      let v := if (0 <=? e)%Z then inject_Z (Zpos m * 2 ^ e)
               else (Zpos m # Z.to_pos (2 ^ (- e)))%Q in
      Some (if s then Qopp v else v)
  | SpecFloat.S754_infinity _ => None
  | SpecFloat.S754_nan => None
  end.

(** Does [fl] after the exact operation [exact] give what the machine's
    operation [machine] gives on the binary64 values [a] and [b]? *)
Definition fl_agrees (machine : float -> float -> float) (exact : Q -> Q -> Q)
    (a b : float) : bool :=
  match Qof a, Qof b, Qof (machine a b) with
  | Some qa, Some qb, Some qr => Qeq_bool (fl (exact qa qb)) qr
  | _, _, _ => false
  end.

(** Pairs of binary64 values on which [fl] is compared with the machine:
    around 1, around the decimal fractions, large, subnormal and negative
    ones. *)
Definition fl_samples : list (float * float) :=
  [(0x1p-60, 1); (0x1p-54, 1); (0x1.0000000000001p-54, 1); (0x1p-1, 1);
   (0x1.999999999999ap-4, 0x1.3333333333333p-2);
   (0x1.2p2, 5); (0x1.999999999999ap-4, 0x1.999999999999ap-3);
   (0x1.b1ae4d6e2ef5p69, 3600); (0x0.00000000007e8p-1022, 3);
   (0x1p-1074, 0x1p-1074); (0x1.fffffffffffffp-1, 0x1p-54);
   (0x1.d6f34547df3b6p+26, 0x1.0c6f7a0b5ed8dp-20); (3, 0x1.999999999999ap-4);
   (0x0.012688b70e62bp-1022, 0x1.b7cdfd9d7bdbbp-34);
   (0x0.0000000000001p-1022, 0x1p-1); (0x1.fffffffffffffp1023, 1);
   (-0x1.dp2, 0x1.999999999999ap-4);
   (-0x1.999999999999ap-4, -0x1.999999999999ap-3);
   (0x1.1c37937e08p53, 1); (0x1p53, 1); (20, 10); (25, 0x1.4p4)]%float.

(** ** services/simulationApi.ts *)

Module TrainInput.
Record t : Type := mk {
  id : string;
  name : string;
  from_station : string;
  to_station : string;
  departure_time : Q;
  arrival_time : Q;
  priority : Q;
  train_type : string;
  max_speed : Q;
  length : Q;
  max_capacity : Q
}.
End TrainInput.

Module SimulationRequest.
Record t : Type := mk {
  trains : list TrainInput.t;
  priority_rule : string;
  max_time : Q;
  time_step : Q
}.
End SimulationRequest.

Module SimulationLog.
Record t : Type := mk {
  time : Q;
  train_id : string;
  current_block : option string;
  current_station : option string;
  status : string;
  delay : Q;
  speed : Q;
  position : option (Q * Q)
}.
End SimulationLog.

Module SimulationMetrics.
Record t : Type := mk {
  total_delays : Q;
  max_delay : Q;
  average_delay : Q;
  total_throughput : Q;
  conflict_count : Q;
  simulation_time : Q
}.
End SimulationMetrics.

Module SimulationResponse.
Record t : Type := mk {
  success : bool;
  logs : list SimulationLog.t;
  metrics : SimulationMetrics.t;
  network : json;
  message : option string
}.
End SimulationResponse.

(** ** contexts/SimulationContext.tsx *)

Module SimulationContext.

(** The arrow function that the auto-play effect of [SimulationControl]
    hands to [setCurrentTime]: [prev => { const nextTime = prev +
    (playbackSpeed * 10); ... }].  A closure is represented by the
    variables it captured. *)
Record TickUpdater : Type := mkUpdater {
  captured_playbackSpeed : Q;
  captured_maxLogTime : Q
}.

(** What the [currentTime] slot can hold at run time.  Its declared type is
    [number]; [setCurrentTime] stores its argument unexamined, so the slot
    holds whatever value the caller passed. *)
Inductive TimeValue : Type :=
  | Num (t : Q)
  | Fn (u : TickUpdater).

Record SimulationState : Type := mkState {
  isRunning : bool;
  logs : list SimulationLog.t;
  metrics : option SimulationMetrics.t;
  network : json;
  currentTime : TimeValue;
  trains : list TrainInput.t;
  error : option string
}.

(** The initial value given to [useState]. *)
Definition initialState : SimulationState :=
  {| isRunning := false; logs := []; metrics := None; network := JNull;
     currentTime := Num 0; trains := []; error := None |}.

(** What a rejected promise carries into [catch (error)]. *)
Inductive Thrown : Type :=
  | ErrorObject (message : string)
  | OtherValue.

(** How [await simulationApi.runSimulation(...)] ends. *)
Inductive Settled : Type :=
  | Fulfilled (response : SimulationResponse.t)
  | Rejected (thrown : Thrown).

(** The request built by [runSimulation] with its default parameters
    [priorityRule = 'priority'] and [maxTime = 3600]. *)
Definition request (trains : list TrainInput.t)
    (priorityRule : option string) (maxTime : option Q) : SimulationRequest.t :=
  {| SimulationRequest.trains := trains;
     SimulationRequest.priority_rule := default "priority"%string priorityRule;
     SimulationRequest.max_time := default 3600%Q maxTime;
     SimulationRequest.time_step := 1%Q |}.

(** [setState(prev => ({ ...prev, isRunning: true, error: null }))] *)
Definition runSimulation_begin (prev : SimulationState) : SimulationState :=
  {| isRunning := true; logs := logs prev; metrics := metrics prev;
     network := network prev; currentTime := currentTime prev;
     trains := trains prev; error := None |}.

(** [response.message || 'Simulation failed']: an absent or empty message
    is falsy. *)
Definition message_or (fallback : string) (message : option string) : string :=
  match message with
  | None => fallback
  | Some m => if decide (m = ""%string) then fallback else m
  end.

(** [error instanceof Error ? error.message : 'Unknown error occurred'] *)
Definition thrown_message (e : Thrown) : string :=
  match e with
  | ErrorObject m => m
  | OtherValue => "Unknown error occurred"%string
  end.

(** The [setState] updater that runs once the promise has settled. *)
Definition runSimulation_settle (trains0 : list TrainInput.t) (o : Settled)
    (prev : SimulationState) : SimulationState :=
  match o with
  | Fulfilled response =>
      if SimulationResponse.success response then
        {| isRunning := false;
           logs := SimulationResponse.logs response;
           metrics := Some (SimulationResponse.metrics response);
           network := SimulationResponse.network response;
           currentTime := Num 0;
           trains := trains0;
           error := error prev |}
      else
        {| isRunning := false; logs := logs prev; metrics := metrics prev;
           network := network prev; currentTime := currentTime prev;
           trains := trains prev;
           error := Some (message_or "Simulation failed"
                            (SimulationResponse.message response)) |}
  | Rejected e =>
      {| isRunning := false; logs := logs prev; metrics := metrics prev;
         network := network prev; currentTime := currentTime prev;
         trains := trains prev;
         error := Some (thrown_message e) |}
  end.

(** A whole call of [runSimulation] during which no other update of the
    session state is dispatched. *)
Definition runSimulation (trains0 : list TrainInput.t) (o : Settled)
    (s : SimulationState) : SimulationState :=
  runSimulation_settle trains0 o (runSimulation_begin s).

(** Does the call end in the [else] branch or in the [catch] block? *)
Definition failed (o : Settled) : bool :=
  match o with
  | Fulfilled response => negb (SimulationResponse.success response)
  | Rejected _ => true
  end.

Definition clearSimulation (_ : SimulationState) : SimulationState :=
  initialState.

(** [setState(prev => ({ ...prev, currentTime: time }))] *)
Definition setCurrentTime (time : TimeValue) (prev : SimulationState)
    : SimulationState :=
  {| isRunning := isRunning prev; logs := logs prev; metrics := metrics prev;
     network := network prev; currentTime := time;
     trains := trains prev; error := error prev |}.

(** [Math.abs(log.time - time) < 1]: the difference is rounded, its
    magnitude and the comparison are exact. *)
Definition near (time : Q) (log : SimulationLog.t) : bool :=
  Qltb (Qabs (fl (SimulationLog.time log - time))) 1.

(** [log.train_id === trainId] *)
Definition of_train (trainId : string) (log : SimulationLog.t) : bool :=
  bool_decide (SimulationLog.train_id log = trainId).

(** [find] yields the first element satisfying the test or [undefined];
    [logAtTime || null] turns [undefined] into [null] and keeps an
    object. *)
Definition getTrainAtTime (state_logs : list SimulationLog.t)
    (trainId : string) (time : Q) : option SimulationLog.t :=
  let trainLogs := List.filter (of_train trainId) state_logs in
  let logAtTime := List.find (near time) trainLogs in
  logAtTime.

Definition getTrainsAtTime (state_logs : list SimulationLog.t) (time : Q)
    : list SimulationLog.t :=
  let logsAtTime := List.filter (near time) state_logs in
  logsAtTime.

(** The [setState] updater of [runSimulationFromGA] that runs once its
    promise has settled.  The updater before the [await] is the one of
    [runSimulation]. *)
Definition runSimulationFromGA_settle (o : Settled) (prev : SimulationState)
    : SimulationState :=
  match o with
  | Fulfilled response =>
      if SimulationResponse.success response then
        {| isRunning := false;
           logs := SimulationResponse.logs response;
           metrics := Some (SimulationResponse.metrics response);
           network := SimulationResponse.network response;
           currentTime := Num 0;
           trains := trains prev;
           error := error prev |}
      else
        {| isRunning := false; logs := logs prev; metrics := metrics prev;
           network := network prev; currentTime := currentTime prev;
           trains := trains prev;
           error := Some (message_or "GA simulation failed"
                            (SimulationResponse.message response)) |}
  | Rejected e =>
      {| isRunning := false; logs := logs prev; metrics := metrics prev;
         network := network prev; currentTime := currentTime prev;
         trains := trains prev;
         error := Some (thrown_message e) |}
  end.

(** A whole call of [runSimulationFromGA] during which no other update of
    the session state is dispatched. *)
Definition runSimulationFromGA (o : Settled) (s : SimulationState)
    : SimulationState :=
  runSimulationFromGA_settle o (runSimulation_begin s).

End SimulationContext.

(** ** components/simulation/SimulationControl.tsx *)

Module SimulationControl.
Import SimulationContext.

(** The component's own [useState] cells. *)
Record Local : Type := mkLocal {
  isPlaying : bool;
  playbackSpeed : Q;
  maxTime : Q;
  priorityRule : string
}.

Definition initialLocal : Local :=
  {| isPlaying := false; playbackSpeed := 1; maxTime := 3600;
     priorityRule := "priority" |}.

(** The session state of the provider, the component's cells, and the
    requests that have been sent to the solver so far. *)
Record World : Type := mkWorld {
  session : SimulationState;
  ui : Local;
  sent : list SimulationRequest.t
}.

Definition initialWorld : World :=
  {| session := initialState; ui := initialLocal; sent := [] |}.

Definition setIsPlaying (b : bool) (l : Local) : Local :=
  {| isPlaying := b; playbackSpeed := playbackSpeed l;
     maxTime := maxTime l; priorityRule := priorityRule l |}.

Definition setPlaybackSpeed (v : Q) (l : Local) : Local :=
  {| isPlaying := isPlaying l; playbackSpeed := v;
     maxTime := maxTime l; priorityRule := priorityRule l |}.

(** [logs.length > 0 ? Math.max(...logs.map(log => log.time)) : 0] *)
Definition maxLogTime (logs0 : list SimulationLog.t) : Q :=
  match List.map SimulationLog.time logs0 with
  | [] => 0
  | t :: ts => fold_left Qmax ts t
  end.

(** The body of the arrow function handed to [setCurrentTime] by the
    auto-play effect, applied to a previous time: the next time, and
    whether [setIsPlaying(false)] is called. *)
Definition updater_apply (u : TickUpdater) (prev : Q) : Q * bool :=
  let nextTime := fl (prev + fl (captured_playbackSpeed u * 10)) in
  if Qgeb nextTime (captured_maxLogTime u)
  then (captured_maxLogTime u, true)
  else (nextTime, false).

(** [isPlaying && logs.length > 0]: the effect installs its interval. *)
Definition autoPlay (w : World) : bool :=
  isPlaying (ui w) && bool_decide (0 < length (logs (session w)))%nat.

(** One firing of the interval: [setCurrentTime(prev => {...})], where
    [setCurrentTime] is the function of the context. *)
Definition intervalCallback (w : World) : World :=
  let u := {| captured_playbackSpeed := playbackSpeed (ui w);
              captured_maxLogTime := maxLogTime (logs (session w)) |} in
  {| session := setCurrentTime (Fn u) (session w);
     ui := ui w; sent := sent w |}.

(** A tick of the playback clock: the interval fires only while the effect
    has it installed. *)
Definition tick (w : World) : World :=
  if autoPlay w then intervalCallback w else w.

Fixpoint ticks (n : nat) (w : World) : World :=
  match n with
  | O => w
  | S k => ticks k (tick w)
  end.

Definition sampleTrains : list TrainInput.t :=
  [ {| TrainInput.id := "T001"; TrainInput.name := "Express Alpha";
       TrainInput.from_station := "S1"; TrainInput.to_station := "S2";
       TrainInput.departure_time := 0; TrainInput.arrival_time := 1800;
       TrainInput.priority := 1; TrainInput.train_type := "Express";
       TrainInput.max_speed := 120; TrainInput.length := 200;
       TrainInput.max_capacity := 500 |};
    {| TrainInput.id := "T002"; TrainInput.name := "Local Beta";
       TrainInput.from_station := "S1"; TrainInput.to_station := "S2";
       TrainInput.departure_time := 300; TrainInput.arrival_time := 2400;
       TrainInput.priority := 2; TrainInput.train_type := "Local";
       TrainInput.max_speed := 100; TrainInput.length := 180;
       TrainInput.max_capacity := 400 |} ].

(** [handlePlay]: with an empty log the call of [runSimulation] runs up to
    its [await] (the request is sent, the session is marked running);
    otherwise playback starts. *)
Definition handlePlay (w : World) : World :=
  if bool_decide (length (logs (session w)) = 0%nat) then
    {| session := runSimulation_begin (session w);
       ui := ui w;
       sent := sent w ++
               [request sampleTrains (Some (priorityRule (ui w)))
                  (Some (maxTime (ui w)))] |}
  else
    {| session := session w; ui := setIsPlaying true (ui w); sent := sent w |}.

Definition handlePause (w : World) : World :=
  {| session := session w; ui := setIsPlaying false (ui w); sent := sent w |}.

Definition handleStop (w : World) : World :=
  {| session := setCurrentTime (Num 0) (session w);
     ui := setIsPlaying false (ui w); sent := sent w |}.

Definition handleReset (w : World) : World :=
  {| session := clearSimulation (setCurrentTime (Num 0) (session w));
     ui := setIsPlaying false (ui w); sent := sent w |}.

(** The [option] elements of the playback-speed [select]. *)
Definition speedOptions : list Q := [1 # 2; 1; 2; 5; 10]%Q.

(** [onChange={(e) => setPlaybackSpeed(Number(e.target.value))}], on the
    number that [Number] produced from the selected value. *)
Definition onPlaybackSpeedChange (value : Q) (w : World) : World :=
  {| session := session w; ui := setPlaybackSpeed value (ui w);
     sent := sent w |}.

(** The four buttons.  A button whose [disabled] attribute holds does not
    call its handler: Play has [disabled={isRunning}], Pause has
    [disabled={!isPlaying}], Stop has [disabled={logs.length === 0}], Reset
    is always enabled. *)
Definition clickPlay (w : World) : World :=
  if isRunning (session w) then w else handlePlay w.

Definition clickPause (w : World) : World :=
  if negb (isPlaying (ui w)) then w else handlePause w.

Definition clickStop (w : World) : World :=
  if bool_decide (length (logs (session w)) = 0%nat) then w else handleStop w.

Definition clickReset (w : World) : World := handleReset w.

(** The call of [runSimulation] that [handlePlay] started, from the moment
    its promise settles. *)
Definition sampleRunSettles (o : Settled) (w : World) : World :=
  {| session := runSimulation_settle sampleTrains o (session w);
     ui := ui w; sent := sent w |}.

End SimulationControl.

(** ** components/operations/NetworkMap.tsx *)

Module NetworkMap.

Record Point : Type := mkPoint { x : float; y : float }.

(** [Station] and [Train] of [types/railway]; the fields that the position
    update does not read ([platforms], [signals], [route], ...) are left
    out. *)
Module Station.
Record t : Type := mk {
  id : string;
  name : string;
  code : string;
  position : Point
}.
End Station.

Module Train.
Record t : Type := mk {
  id : string;
  name : string;
  currentStation : option string;
  nextStation : option string
}.
End Train.

(** [Array.prototype.findIndex]: the first index whose element passes the
    test, [-1] when there is none. *)
Fixpoint findIndex {A : Type} (test : A -> bool) (l : list A) : Z :=
  match l with
  | [] => (-1)%Z
  | a :: l' =>
      if test a then 0%Z
      else let i := findIndex test l' in
           if (i <? 0)%Z then (-1)%Z else (i + 1)%Z
  end.

(** [s => s.id === key], where [key] may be [undefined]. *)
Definition hasId (key : option string) (s : Station.t) : bool :=
  match key with
  | Some k => bool_decide (Station.id s = k)
  | None => false
  end.

(** The binary64 value of an integer between -9999 and 9999. *)
Definition small_float (r : Z) : float :=
  match r with
  | Z0 => 0%float
  | Zpos _ => of_uint63 (Uint63.of_Z r)
  | Zneg _ => (- of_uint63 (Uint63.of_Z (- r)))%float
  end.

(** [Date.now() % 10000]: [Date.now()] is a whole number of milliseconds,
    and the remainder, which has the sign of the dividend, is exact; a
    remainder 0 of a negative reading is the negative zero. *)
Definition phase (now : Z) : float :=
  if (Z.rem now 10000 =? 0)%Z && (now <? 0)%Z then (- 0)%float
  else small_float (Z.rem now 10000).

(** [(Date.now() % 10000) / 10000] *)
Definition progress (now : Z) : float := (phase now / 10000)%float.

(** Lines 34-35: the coordinates of a train between two stations. *)
Definition interpolate (origin destination : Point) (p : float) : Point :=
  {| x := (x origin + (x destination - x origin) * p)%float;
     y := (y origin + (y destination - y origin) * p)%float |}.

(** The body of [trains.forEach(train => ...)], with the clock reading
    [now] that [Date.now()] returns in this iteration.  The map holds the
    own properties of the object [newPositions]; an assignment
    [newPositions[train.id] = ...] adds or replaces the own property named
    by the id, as it does for every id but ['__proto__']. *)
Definition updateTrain (stations : list Station.t) (now : Z)
    (newPositions : gmap string Point) (train : Train.t) : gmap string Point :=
  let currentStationIndex := findIndex (hasId (Train.currentStation train)) stations in
  let nextStationIndex := findIndex (hasId (Train.nextStation train)) stations in
  if (0 <=? currentStationIndex)%Z && (0 <=? nextStationIndex)%Z then
    match stations !! Z.to_nat currentStationIndex,
          stations !! Z.to_nat nextStationIndex with
    | Some currentStation, Some nextStation =>
        <[Train.id train :=
            interpolate (Station.position currentStation)
                        (Station.position nextStation) (progress now)]> newPositions
    | _, _ => newPositions
    end
  else if (0 <=? currentStationIndex)%Z then
    match stations !! Z.to_nat currentStationIndex with
    | Some currentStation =>
        <[Train.id train := Station.position currentStation]> newPositions
    | None => newPositions
    end
  else newPositions.

(** [trains.forEach] from iteration [i] on; [clock k] is what [Date.now()]
    returns in iteration [k]. *)
Fixpoint forEach_from (stations : list Station.t) (clock : nat -> Z) (i : nat)
    (trains : list Train.t) (newPositions : gmap string Point)
    : gmap string Point :=
  match trains with
  | [] => newPositions
  | train :: rest =>
      forEach_from stations clock (S i) rest
        (updateTrain stations (clock i) newPositions train)
  end.

(** The updater given to [setTrainPositions] by one firing of the
    interval.  [prev] holds the own properties of the previous object,
    which [{ ...prev }] copies; the previous object has the standard
    prototype, as it has as long as no train has been given the id
    ['__proto__']. *)
Definition updatePositions (stations : list Station.t) (trains : list Train.t)
    (clock : nat -> Z) (prev : gmap string Point) : gmap string Point :=
  forEach_from stations clock 0 trains prev.


(** The names of the properties that a plain object inherits from
    [Object.prototype]: reading one of them on [trainPositions] yields the
    inherited value when no position is stored under it, and assigning to
    ['__proto__'] replaces the prototype instead of storing a position. *)
Definition inheritedKeys : list string :=
  [ "__proto__"; "constructor"; "hasOwnProperty"; "isPrototypeOf";
    "propertyIsEnumerable"; "toLocaleString"; "toString"; "valueOf";
    "__defineGetter__"; "__defineSetter__"; "__lookupGetter__";
    "__lookupSetter__" ]%string.

(** An id under which the object stores and reads a position as a map
    does. *)
Definition ordinary (id : string) : Prop := id ∉ inheritedKeys.

End NetworkMap.

(** ** The statements of the playback design that the code is compared with *)

Module Design.
Import SimulationContext.

(** [|entry.time - T|] *)
Definition distance (T : Q) (e : SimulationLog.t) : Q :=
  Qabs (SimulationLog.time e - T).

(** The entry returned for a train minimises the distance to [T] among the
    train's entries inside the window. *)
Definition returns_closest (logs0 : list SimulationLog.t) (trainId : string)
    (T : Q) : Prop :=
  forall e, getTrainAtTime logs0 trainId T = Some e ->
    forall e', e' ∈ logs0 -> SimulationLog.train_id e' = trainId ->
      (distance T e' < 1)%Q -> (distance T e <= distance T e')%Q.

(** Of entries at equal distance, the one ingested later is returned: the
    returned entry sits at an index that no equally distant entry of the
    train exceeds. *)
Definition later_wins_ties (logs0 : list SimulationLog.t) (trainId : string)
    (T : Q) : Prop :=
  forall e, getTrainAtTime logs0 trainId T = Some e ->
    exists i, logs0 !! i = Some e /\
      forall j e', logs0 !! j = Some e' ->
        SimulationLog.train_id e' = trainId ->
        (distance T e' == distance T e)%Q -> (j <= i)%nat.

(** No two entries of a result carry the same train id. *)
Definition one_per_train (result : list SimulationLog.t) : Prop :=
  NoDup (List.map SimulationLog.train_id result).

(** Some entry of the train lies within [tol] of [T]. *)
Definition in_tolerance (logs0 : list SimulationLog.t) (trainId : string)
    (T tol : Q) : Prop :=
  exists e, e ∈ logs0 /\ SimulationLog.train_id e = trainId /\
            (distance T e <= tol)%Q.

(** A query with tolerance [tol] answers with an entry only if some entry
    of the train lies within [tol].  The source function has no tolerance
    parameter, so the answer is that of [getTrainAtTime] whatever [tol]
    the caller has in mind. *)
Definition answers_only_within (logs0 : list SimulationLog.t)
    (trainId : string) (T tol : Q) : Prop :=
  is_Some (getTrainAtTime logs0 trainId T) -> in_tolerance logs0 trainId T tol.

(** The fields of an installed run and of the clock agree. *)
Definition same_run (s s' : SimulationState) : Prop :=
  logs s' = logs s /\ network s' = network s /\ metrics s' = metrics s /\
  currentTime s' = currentTime s.

(** A seek leaves a number between 0 and the largest log time in the
    [currentTime] slot. *)
Definition seek_clamped (t : Q) (s : SimulationState) : Prop :=
  exists t', currentTime (setCurrentTime (Num t) s) = Num t' /\
             (0 <= t' <= SimulationControl.maxLogTime (logs s))%Q.

(** A speed that is not strictly positive is refused: it does not become
    the playback speed. *)
Definition refuses_speed (v : Q) (w : SimulationControl.World) : Prop :=
  SimulationControl.playbackSpeed
    (SimulationControl.ui (SimulationControl.onPlaybackSpeedChange v w))
  = SimulationControl.playbackSpeed (SimulationControl.ui w).

(** Pressing play on an empty log is refused with an error. *)
Definition play_refused (w : SimulationControl.World) : Prop :=
  is_Some (error (SimulationControl.session (SimulationControl.handlePlay w))) /\
  SimulationControl.sent (SimulationControl.handlePlay w) = SimulationControl.sent w.

(** A log entry of the given time, train and status. *)
Definition entry (t : Q) (trainId status : string) : SimulationLog.t :=
  {| SimulationLog.time := t; SimulationLog.train_id := trainId;
     SimulationLog.current_block := None;
     SimulationLog.current_station := None;
     SimulationLog.status := status; SimulationLog.delay := 0;
     SimulationLog.speed := 0; SimulationLog.position := None |}.

(** Entries of one train at different places of the log are at least 2 time
    units apart. *)
Definition spaced (entries : list SimulationLog.t) : Prop :=
  forall (i j : nat) (a b : SimulationLog.t),
    i <> j -> entries !! i = Some a -> entries !! j = Some b ->
    SimulationLog.train_id a = SimulationLog.train_id b ->
    (2 <= Qabs (SimulationLog.time a - SimulationLog.time b))%Q.



End Design.

(** ** Concrete logs and states used in the evaluations *)

Module Fixtures.
Import SimulationContext Design.

(** Train A observed at 4.5 and at 5. *)
Definition closer_log : list SimulationLog.t :=
  [entry (9 # 2) "A" "moving"; entry 5 "A" "stopped"].

(** Train A observed at 4.5 and at 5.5: both are 0.5 away from 5. *)
Definition tie_log : list SimulationLog.t :=
  [entry (9 # 2) "A" "moving"; entry (11 # 2) "A" "stopped"].

(** Train A observed at 4.25 only. *)
Definition sparse_log : list SimulationLog.t :=
  [entry (17 # 4) "A" "moving"].

(** Train A observed at 4 only: exactly 1 away from 5. *)
Definition edge_log : list SimulationLog.t :=
  [entry 4 "A" "moving"].

(** Train A observed at 0 and at 25. *)
Definition short_log : list SimulationLog.t :=
  [entry 0 "A" "moving"; entry 25 "A" "arrived"].

Definition some_metrics : SimulationMetrics.t :=
  {| SimulationMetrics.total_delays := 0; SimulationMetrics.max_delay := 0;
     SimulationMetrics.average_delay := 0;
     SimulationMetrics.total_throughput := 1;
     SimulationMetrics.conflict_count := 0;
     SimulationMetrics.simulation_time := 25 |}.

(** A session with an installed run, scrubbed to time 20. *)
Definition loaded : SimulationState :=
  {| isRunning := false; logs := short_log; metrics := Some some_metrics;
     network := JObj [("stations"%string, JArr [])];
     currentTime := Num 20; trains := SimulationControl.sampleTrains;
     error := None |}.

(** The same session while it is being played back at speed 1. *)
Definition playing : SimulationControl.World :=
  {| SimulationControl.session := loaded;
     SimulationControl.ui :=
       SimulationControl.setIsPlaying true SimulationControl.initialLocal;
     SimulationControl.sent := [] |}.

(** Two stations on the horizontal axis and a train between them. *)
Definition S1 : NetworkMap.Station.t :=
  {| NetworkMap.Station.id := "S1"; NetworkMap.Station.name := "Central";
     NetworkMap.Station.code := "CEN";
     NetworkMap.Station.position := {| NetworkMap.x := 0; NetworkMap.y := 0 |} |}.

Definition S2 : NetworkMap.Station.t :=
  {| NetworkMap.Station.id := "S2"; NetworkMap.Station.name := "North";
     NetworkMap.Station.code := "NOR";
     NetworkMap.Station.position := {| NetworkMap.x := 10; NetworkMap.y := 0 |} |}.

Definition T1 : NetworkMap.Train.t :=
  {| NetworkMap.Train.id := "T1"; NetworkMap.Train.name := "Express Alpha";
     NetworkMap.Train.currentStation := Some "S1"%string;
     NetworkMap.Train.nextStation := Some "S2"%string |}.

(** [Date.now()] reads 1700000005000 ms: half way through a cycle. *)
Definition mid_cycle (_ : nat) : Z := 1700000005000%Z.




(** A response by which the solver rejects a run. *)
Definition rejection : SimulationResponse.t :=
  {| SimulationResponse.success := false; SimulationResponse.logs := [];
     SimulationResponse.metrics := some_metrics;
     SimulationResponse.network := JNull;
     SimulationResponse.message := Some "No feasible schedule"%string |}.

(** A response by which the solver answers a run with a log. *)
Definition answer : SimulationResponse.t :=
  {| SimulationResponse.success := true;
     SimulationResponse.logs := tie_log;
     SimulationResponse.metrics := some_metrics;
     SimulationResponse.network := JObj [("blocks"%string, JArr [])];
     SimulationResponse.message := None |}.

(** A session in which an earlier run has failed. *)
Definition after_failure : SimulationState :=
  {| isRunning := false; logs := short_log; metrics := Some some_metrics;
     network := JNull; currentTime := Num 20;
     trains := SimulationControl.sampleTrains;
     error := Some "Network Error"%string |}.

(** The installed session, not being played back. *)
Definition paused : SimulationControl.World :=
  {| SimulationControl.session := loaded;
     SimulationControl.ui := SimulationControl.initialLocal;
     SimulationControl.sent := [] |}.

(** A train standing at S2 with no next station, and a train whose current
    station is not on the map. *)
Definition T2 : NetworkMap.Train.t :=
  {| NetworkMap.Train.id := "T2"; NetworkMap.Train.name := "Local Beta";
     NetworkMap.Train.currentStation := Some "S2"%string;
     NetworkMap.Train.nextStation := None |}.

Definition T3 : NetworkMap.Train.t :=
  {| NetworkMap.Train.id := "T3"; NetworkMap.Train.name := "Freight Gamma";
     NetworkMap.Train.currentStation := Some "S9"%string;
     NetworkMap.Train.nextStation := Some "S1"%string |}.

End Fixtures.

(** * Properties *)

(** ** Numbers *)

Lemma Qltb_lt (a b : Q) : Qltb a b = true <-> (a < b)%Q.
Proof.
  unfold Qltb. rewrite Qlt_alt.
  destruct (a ?= b)%Q; split; congruence.
Qed.

Lemma Qgeb_le (a b : Q) : Qgeb a b = true <-> (b <= a)%Q.
Proof. unfold Qgeb. apply Qle_bool_iff. Qed.

(** ** The rounding *)

(** On the sample pairs, [fl] after the exact difference, sum and product
    is the difference, sum and product that the machine computes. *)
Lemma fl_agrees_on_samples :
  forallb (fun ab => fl_agrees PrimFloat.sub Qminus (fst ab) (snd ab) &&
                     fl_agrees PrimFloat.add Qplus (fst ab) (snd ab) &&
                     fl_agrees PrimFloat.mul Qmult (fst ab) (snd ab))
          fl_samples = true.
Proof. vm_compute. reflexivity. Qed.

Lemma log2_floor_lower (n d : positive) :
  (0 <= log2_floor n d)%Z -> (Zpos d * 2 ^ log2_floor n d <= Zpos n)%Z.
Proof.
  unfold log2_floor.
  pose proof (Z.log2_spec (Zpos n) ltac:(lia)) as [Hn _].
  pose proof (Z.log2_spec (Zpos d) ltac:(lia)) as [_ Hd].
  pose proof (Z.log2_nonneg (Zpos n)) as Hn0.
  pose proof (Z.log2_nonneg (Zpos d)) as Hd0.
  set (a := Z.log2 (Zpos n)) in *. set (b := Z.log2 (Zpos d)) in *.
  destruct (Z.leb_spec 0 (a - b)) as [Hl|Hl].
  - destruct (Z.leb_spec (Zpos d * 2 ^ (a - b)) (Zpos n)) as [Hc|Hc];
      [intros _; exact Hc|].
    intros Hl1.
    assert (Hpow : (2 ^ a = 2 ^ Z.succ b * 2 ^ (a - b - 1))%Z).
    { rewrite <- Z.pow_add_r by lia. f_equal. lia. }
    assert (0 < 2 ^ (a - b - 1))%Z by (apply Z.pow_pos_nonneg; lia).
    nia.
  - destruct (Z.leb_spec (Zpos d) (Zpos n * 2 ^ (- (a - b)))); lia.
Qed.

Lemma nearest_even_ge (N : Z) (D : positive) :
  (N / Zpos D <= nearest_even N D)%Z.
Proof.
  unfold nearest_even.
  destruct (2 * (N mod Zpos D) ?= Zpos D)%Z; [|lia|lia].
  destruct (Z.even (N / Zpos D)); lia.
Qed.

Lemma fl_pos_ge_1 (n d : positive) :
  (Zpos d <= Zpos n)%Z -> (1 <= fl_pos n d)%Q.
Proof.
  intros Hnd. unfold fl_pos.
  set (e := Z.max (log2_floor n d - 52) (-1074)).
  destruct (Z.leb_spec 0 e) as [He|He].
  - assert (HL : (0 <= log2_floor n d)%Z) by lia.
    pose proof (log2_floor_lower n d HL) as Hlow.
    assert (Hpe : (0 < 2 ^ e)%Z) by (apply Z.pow_pos_nonneg; lia).
    assert (Hee : (2 ^ log2_floor n d = 2 ^ e * 2 ^ (log2_floor n d - e))%Z).
    { rewrite <- Z.pow_add_r by lia. f_equal. lia. }
    assert (Hpd : (0 < 2 ^ (log2_floor n d - e))%Z)
      by (apply Z.pow_pos_nonneg; lia).
    pose proof (nearest_even_ge (Zpos n) (d * Z.to_pos (2 ^ e))) as Hge.
    assert (Hf : (1 <= Zpos n / Zpos (d * Z.to_pos (2 ^ e)))%Z).
    { apply Z.div_le_lower_bound; [lia|].
      rewrite Pos2Z.inj_mul, Z2Pos.id by lia. nia. }
    unfold Qle. simpl. nia.
  - assert (Hpe : (0 < 2 ^ (- e))%Z) by (apply Z.pow_pos_nonneg; lia).
    pose proof (nearest_even_ge (Zpos n * 2 ^ (- e)) d) as Hge.
    assert (Hf : (2 ^ (- e) <= Zpos n * 2 ^ (- e) / Zpos d)%Z).
    { apply Z.div_le_lower_bound; [lia|]. nia. }
    unfold Qle. simpl. rewrite Z2Pos.id by lia. lia.
Qed.

(** Rounding never brings a number of magnitude 1 or more below 1: the
    number 1 is a binary64 value and the rounding is monotone. *)
Lemma fl_ge_1 (q : Q) : (1 <= Qabs q)%Q -> (1 <= Qabs (fl q))%Q.
Proof.
  destruct q as [[|n|n] d]; unfold fl; cbn [Qnum Qden]; intros H.
  - exact H.
  - assert (Hge : (1 <= fl_pos n d)%Q).
    { apply fl_pos_ge_1. unfold Qle in H. simpl in H. lia. }
    rewrite Qabs_pos; [exact Hge|].
    eapply Qle_trans; [|exact Hge]. discriminate.
  - assert (Hge : (1 <= fl_pos n d)%Q).
    { apply fl_pos_ge_1. unfold Qle in H. simpl in H. lia. }
    rewrite Qabs_opp, Qabs_pos; [exact Hge|].
    eapply Qle_trans; [|exact Hge]. discriminate.
Qed.

Lemma log2_floor_upper (n d : positive) :
  (log2_floor n d <= -1)%Z ->
  (Zpos n * 2 ^ (- (log2_floor n d + 1)) < Zpos d)%Z.
Proof.
  unfold log2_floor.
  pose proof (Z.log2_spec (Zpos n) ltac:(lia)) as [_ Hn].
  pose proof (Z.log2_spec (Zpos d) ltac:(lia)) as [Hd _].
  pose proof (Z.log2_nonneg (Zpos n)) as Hn0.
  pose proof (Z.log2_nonneg (Zpos d)) as Hd0.
  set (a := Z.log2 (Zpos n)) in *. set (b := Z.log2 (Zpos d)) in *.
  destruct (Z.leb_spec 0 (a - b)) as [Hl|Hl].
  - destruct (Z.leb_spec (Zpos d * 2 ^ (a - b)) (Zpos n)) as [Hc|Hc];
      [lia|].
    intros HL. assert (Hab : (a - b = 0)%Z) by lia.
    rewrite Hab in *. replace (- (0 - 1 + 1))%Z with 0%Z by lia.
    simpl in *. lia.
  - destruct (Z.leb_spec (Zpos d) (Zpos n * 2 ^ (- (a - b)))) as [Hc|Hc];
      intros _.
    + assert (Hpow : (2 ^ b = 2 ^ Z.succ a * 2 ^ (- (a - b + 1)))%Z).
      { rewrite <- Z.pow_add_r by lia. f_equal. lia. }
      assert (0 < 2 ^ (- (a - b + 1)))%Z by (apply Z.pow_pos_nonneg; lia).
      nia.
    + replace (- (a - b - 1 + 1))%Z with (- (a - b))%Z by lia. exact Hc.
Qed.

Lemma nearest_even_le (N : Z) (D : positive) :
  (nearest_even N D <= N / Zpos D + 1)%Z.
Proof.
  unfold nearest_even.
  destruct (2 * (N mod Zpos D) ?= Zpos D)%Z; [|lia|lia].
  destruct (Z.even (N / Zpos D)); lia.
Qed.

(** The scaled significand at the exponent -53. *)
Lemma nearest_even_53 (n d : positive) :
  (Zpos n < Zpos d)%Z ->
  (nearest_even (Zpos n * 2 ^ 53) d < 2 ^ 53)%Z <->
  (2 ^ 54 * Zpos n < (2 ^ 54 - 1) * Zpos d)%Z.
Proof.
  intros Hlt. unfold nearest_even.
  pose proof (Z.div_mod (Zpos n * 2 ^ 53) (Zpos d) ltac:(lia)) as Hdm.
  pose proof (Z.mod_pos_bound (Zpos n * 2 ^ 53) (Zpos d) ltac:(lia)) as Hr.
  assert (Hodd : Z.even (2 ^ 53 - 1) = false) by reflexivity.
  assert (H54 : (2 ^ 54 = 2 * 2 ^ 53)%Z) by reflexivity.
  assert (HP : (0 < 2 ^ 53)%Z) by reflexivity.
  rewrite H54. generalize dependent (2 ^ 53)%Z. intros P Hdm Hr Hodd _ HP.
  set (f := (Zpos n * P / Zpos d)%Z) in *.
  set (r := ((Zpos n * P) mod Zpos d)%Z) in *.
  assert (Hf : (f < P)%Z).
  { apply Z.div_lt_upper_bound; [lia|]. nia. }
  destruct (Z.compare_spec (2 * r) (Zpos d)) as [Heq|Hlt2|Hgt].
  - destruct (Z.even f) eqn:Hev.
    + assert (f <> (P - 1)%Z) by (intros Hfe; rewrite Hfe in Hev; congruence).
      split; intros _; [nia|lia].
    + destruct (Z.eq_dec f (P - 1)%Z) as [Hfe|Hne]; split; intros H; nia.
  - split; intros _; [nia|lia].
  - split; intros H; nia.
Qed.

Lemma fl_pos_lt_1 (n d : positive) :
  (fl_pos n d < 1)%Q <-> (2 ^ 54 * Zpos n < (2 ^ 54 - 1) * Zpos d)%Z.
Proof.
  destruct (Z.le_gt_cases (Zpos d) (Zpos n)) as [Hge|Hlt].
  { split.
    - intros H. exfalso. apply (Qlt_not_le _ _ H), fl_pos_ge_1, Hge.
    - intros H. exfalso. assert (0 < 2 ^ 54)%Z by reflexivity. nia. }
  assert (HL : (log2_floor n d <= -1)%Z).
  { destruct (Z.le_gt_cases 0 (log2_floor n d)) as [H0|H0]; [|lia].
    pose proof (log2_floor_lower n d H0).
    assert (0 < 2 ^ log2_floor n d)%Z by (apply Z.pow_pos_nonneg; lia).
    nia. }
  pose proof (log2_floor_upper n d HL) as Hup.
  unfold fl_pos.
  set (L := log2_floor n d) in *.
  set (e := Z.max (L - 52) (-1074)).
  assert (He : (e <= -53)%Z) by lia.
  destruct (Z.leb_spec 0 e) as [He0|_]; [lia|].
  assert (Hpe : (0 < 2 ^ (- e))%Z) by (apply Z.pow_pos_nonneg; lia).
  unfold Qlt. simpl. rewrite Z2Pos.id, Z.mul_1_r, Z.mul_1_l by lia.
  destruct (Z.eq_dec e (-53)%Z) as [He53|Hne].
  - rewrite He53. change (- -53)%Z with 53%Z.
    apply nearest_even_53, Hlt.
  - assert (HeL : (L + 1 <= e + 53)%Z) by lia.
    assert (Hscaled : (Zpos n * 2 ^ (- e) < 2 ^ 53 * Zpos d)%Z).
    { assert (Hp : (2 ^ (- (L + 1))
                    = 2 ^ (- e - 53) * 2 ^ (e + 53 - (L + 1)))%Z).
      { rewrite <- Z.pow_add_r by lia. f_equal. lia. }
      assert (Hq : (2 ^ (- e) = 2 ^ (- e - 53) * 2 ^ 53)%Z).
      { rewrite <- Z.pow_add_r by lia. f_equal. lia. }
      assert (0 < 2 ^ (e + 53 - (L + 1)))%Z by (apply Z.pow_pos_nonneg; lia).
      assert (0 < 2 ^ (- e - 53))%Z by (apply Z.pow_pos_nonneg; lia).
      rewrite Hq. rewrite Hp in Hup.
      generalize dependent (2 ^ 53)%Z. intros P.
      generalize dependent (2 ^ (- e - 53))%Z. intros A.
      generalize dependent (2 ^ (e + 53 - (L + 1)))%Z. intros B. intros.
      nia. }
    assert (Hf : (Zpos n * 2 ^ (- e) / Zpos d < 2 ^ 53)%Z).
    { apply Z.div_lt_upper_bound; lia. }
    pose proof (nearest_even_le (Zpos n * 2 ^ (- e)) d) as Hle.
    assert (Hbig : (2 ^ 54 <= 2 ^ (- e))%Z).
    { apply Z.pow_le_mono_r; lia. }
    assert (H54 : (2 ^ 54 = 2 * 2 ^ 53)%Z) by reflexivity.
    split; intros _; [|lia].
    (* n/d < 1/2 *)
    assert (Hhalf : (2 * Zpos n <= Zpos d)%Z).
    { assert (HL2 : (L <= -2)%Z) by lia.
      assert (Hp : (2 ^ (- (L + 1)) = 2 * 2 ^ (- (L + 2)))%Z).
      { replace (- (L + 1))%Z with (1 + - (L + 2))%Z by lia.
        rewrite Z.pow_add_r by lia. reflexivity. }
      assert (0 < 2 ^ (- (L + 2)))%Z by (apply Z.pow_pos_nonneg; lia).
      nia. }
    nia.
Qed.

Lemma nearest_even_nonneg (N : Z) (D : positive) :
  (0 <= N)%Z -> (0 <= nearest_even N D)%Z.
Proof.
  intros HN. pose proof (nearest_even_ge N D) as Hge.
  assert (0 <= N / Zpos D)%Z by (apply Z.div_pos; lia). lia.
Qed.

Lemma fl_pos_nonneg (n d : positive) : (0 <= fl_pos n d)%Q.
Proof.
  unfold fl_pos.
  set (e := Z.max (log2_floor n d - 52) (-1074)).
  destruct (Z.leb_spec 0 e) as [He|He].
  - pose proof (nearest_even_nonneg (Zpos n) (d * Z.to_pos (2 ^ e)) ltac:(lia)).
    assert (0 < 2 ^ e)%Z by (apply Z.pow_pos_nonneg; lia).
    unfold Qle. simpl. nia.
  - assert (0 < 2 ^ (- e))%Z by (apply Z.pow_pos_nonneg; lia).
    pose proof (nearest_even_nonneg (Zpos n * 2 ^ (- e)) d ltac:(lia)).
    unfold Qle. simpl. lia.
Qed.

(** A number rounds to a magnitude below 1 exactly when its own magnitude
    is below the midpoint of 1 and the binary64 value before it. *)
Lemma fl_lt_1 (q : Q) : (Qabs (fl q) < 1)%Q <-> (Qabs q < below_one)%Q.
Proof.
  destruct q as [[|n|n] d]; unfold fl; cbn [Qnum Qden].
  - split; intros _; reflexivity.
  - rewrite (Qabs_pos _ (fl_pos_nonneg n d)), fl_pos_lt_1.
    unfold Qlt, below_one. simpl Qabs. cbn [Qnum Qden].
    change (2 ^ 54)%Z with 18014398509481984%Z.
    change (18014398509481984 - 1)%Z with 18014398509481983%Z. lia.
  - rewrite Qabs_opp, (Qabs_pos _ (fl_pos_nonneg n d)), fl_pos_lt_1.
    unfold Qlt, below_one. simpl Qabs. cbn [Qnum Qden].
    change (2 ^ 54)%Z with 18014398509481984%Z.
    change (18014398509481984 - 1)%Z with 18014398509481983%Z. lia.
Qed.

(** The rounding of zero is zero. *)
Lemma fl_zero (q : Q) : (q == 0)%Q -> fl q = 0%Q.
Proof.
  destruct q as [n d]. unfold Qeq, fl. simpl. intros H.
  replace n with 0%Z by lia. reflexivity.
Qed.

(** ** Lists: [filter] and [find] as the source chains them *)

Section ListSearch.
Context {A : Type}.
Implicit Types (p q : A -> bool) (l : list A).

Lemma find_filter p q l :
  List.find p (List.filter q l) = List.find (fun a => q a && p a) l.
Proof.
  induction l as [|a l IH]; simpl; [reflexivity|].
  destruct (q a); simpl; [destruct (p a)|]; auto.
Qed.

Lemma find_first p l x :
  List.find p l = Some x <->
  exists l1 l2, l = l1 ++ x :: l2 /\ p x = true /\
                forall y, y ∈ l1 -> p y = false.
Proof.
  induction l as [|a l IH]; simpl.
  - split; [discriminate|]. intros ([|? ?] & ? & ? & _); discriminate.
  - destruct (p a) eqn:Hpa.
    + split.
      * intros [= ->]. exists [], l. split_and!; auto.
        intros y Hy. inversion Hy.
      * intros ([|b l1] & l2 & Hl & Hx & Hl1); simpl in Hl.
        -- congruence.
        -- injection Hl as -> _. rewrite Hl1 in Hpa; [discriminate|].
           apply list_elem_of_here.
    + rewrite IH. split.
      * intros (l1 & l2 & -> & Hx & Hl1). exists (a :: l1), l2.
        split_and!; auto. intros y [->|Hy]%elem_of_cons; auto.
      * intros ([|b l1] & l2 & Hl & Hx & Hl1); simpl in Hl.
        -- injection Hl as -> _. congruence.
        -- injection Hl as -> ->. exists l1, l2. split_and!; auto.
           intros y Hy. apply Hl1. by apply list_elem_of_further.
Qed.

Lemma find_None_iff p l :
  List.find p l = None <-> forall y, y ∈ l -> p y = false.
Proof.
  induction l as [|a l IH]; simpl.
  - split; [|reflexivity]. intros _ y Hy. inversion Hy.
  - destruct (p a) eqn:Hpa.
    + split; [discriminate|]. intros H.
      rewrite H in Hpa; [discriminate | apply list_elem_of_here].
    + rewrite IH. split.
      * intros H y [->|Hy]%elem_of_cons; auto.
      * intros H y Hy. apply H. by apply list_elem_of_further.
Qed.

Lemma find_head_filter p l : List.find p l = head (List.filter p l).
Proof.
  induction l as [|a l IH]; simpl; [reflexivity|].
  destruct (p a); simpl; auto.
Qed.

Lemma filter_filter_swap p q l :
  List.filter p (List.filter q l) = List.filter q (List.filter p l).
Proof.
  induction l as [|a l IH]; simpl; [reflexivity|].
  destruct (q a) eqn:Hq, (p a) eqn:Hp; simpl; rewrite ?Hq, ?Hp, ?IH; reflexivity.
Qed.

Lemma elem_of_filter_bool p l a :
  a ∈ List.filter p l <-> a ∈ l /\ p a = true.
Proof. rewrite !list_elem_of_In. apply filter_In. Qed.

End ListSearch.

(** ** The log queries of the session *)

Section LogQueries.
Import SimulationContext Design.
Implicit Types (entries : list SimulationLog.t) (trainId : string) (T : Q)
               (e : SimulationLog.t).

(** An entry that passes the test of the code is less than 1 away from the
    query time. *)
Lemma near_distance T e : near T e = true -> (distance T e < 1)%Q.
Proof.
  unfold near, distance. intros Hlt%Qltb_lt.
  destruct (Qlt_le_dec (Qabs (SimulationLog.time e - T)) 1) as [Hd|Hd];
    [exact Hd|].
  apply fl_ge_1 in Hd. exfalso. exact (Qlt_not_le _ _ Hlt Hd).
Qed.

(** The test of the code in exact terms: an entry passes it exactly when
    its distance from the query time is below [1 - 2 ^ -54]. *)
Lemma near_window T e : near T e = true <-> (distance T e < below_one)%Q.
Proof. unfold near, distance. rewrite Qltb_lt. apply fl_lt_1. Qed.

(** An entry at the query time passes the test. *)
Lemma near_same T e : (SimulationLog.time e == T)%Q -> near T e = true.
Proof.
  intros Heq. unfold near. rewrite fl_zero; [reflexivity|].
  rewrite Heq. ring.
Qed.

Lemma of_train_spec trainId e :
  of_train trainId e = true <-> SimulationLog.train_id e = trainId.
Proof. unfold of_train. apply bool_decide_eq_true. Qed.

Lemma candidate_true trainId T e :
  of_train trainId e && near T e = true <->
  SimulationLog.train_id e = trainId /\ near T e = true.
Proof. rewrite andb_true_iff, of_train_spec. reflexivity. Qed.

Lemma candidate_false trainId T e :
  of_train trainId e && near T e = false <->
  (SimulationLog.train_id e = trainId -> near T e = false).
Proof.
  rewrite <- not_true_iff_false, candidate_true, <- not_true_iff_false. tauto.
Qed.

Lemma getTrainAtTime_find entries trainId T :
  getTrainAtTime entries trainId T =
  List.find (fun e => of_train trainId e && near T e) entries.
Proof. unfold getTrainAtTime. apply find_filter. Qed.

Lemma getTrainAtTime_None entries trainId T :
  getTrainAtTime entries trainId T = None <->
  forall e, e ∈ entries -> SimulationLog.train_id e = trainId ->
            near T e = false.
Proof.
  rewrite getTrainAtTime_find, find_None_iff.
  split; intros H e He; apply candidate_false; auto.
Qed.

Lemma getTrainAtTime_Some_split entries trainId T e :
  getTrainAtTime entries trainId T = Some e <->
  exists before after,
    entries = before ++ e :: after /\
    SimulationLog.train_id e = trainId /\
    near T e = true /\
    forall e', e' ∈ before -> SimulationLog.train_id e' = trainId ->
               near T e' = false.
Proof.
  rewrite getTrainAtTime_find, find_first. split.
  - intros (l1 & l2 & -> & [Hid Hd]%candidate_true & Hl1).
    exists l1, l2. split_and!; auto.
    intros e' He'. apply candidate_false. auto.
  - intros (l1 & l2 & -> & Hid & Hd & Hl1).
    exists l1, l2. split_and!; auto.
    + apply candidate_true. auto.
    + intros e' He'. apply candidate_false. auto.
Qed.

(** C1 (as the code has it): [getTrainAtTime] returns the first entry, in
    ingestion order, that belongs to the train and passes the test of the
    code, [Math.abs(log.time - time) < 1] with the difference rounded as
    binary64 rounds it.  An entry is the answer exactly when the log splits
    around it so that no earlier entry of the train passes the test; the
    answer is then less than 1 away from the query time; neither the
    distance nor a later position plays a part.  In exact terms an entry
    passes the test when its distance from the query time is below
    [1 - 2 ^ -54]. *)
Theorem getTrainAtTime_first_in_window entries trainId T e :
  (getTrainAtTime entries trainId T = Some e <->
   exists before after,
     entries = before ++ e :: after /\
     SimulationLog.train_id e = trainId /\
     near T e = true /\
     forall e', e' ∈ before -> SimulationLog.train_id e' = trainId ->
                near T e' = false) /\
  (getTrainAtTime entries trainId T = Some e -> (distance T e < 1)%Q) /\
  (forall e', near T e' = true <-> (distance T e' < below_one)%Q).
Proof.
  split; [apply getTrainAtTime_Some_split|]. split.
  - intros (_ & _ & _ & _ & Hnear & _)%getTrainAtTime_Some_split.
    apply near_distance, Hnear.
  - intros e'. apply near_window.
Qed.

(** C7 (as the code has it): [getTrainAtTime] answers with an entry exactly
    when some entry of the train passes the test of the code,
    [Math.abs(log.time - time) < 1] with the difference rounded as binary64
    rounds it; the entry it answers with is such an entry of the log and is
    less than 1 away from the query time; it answers [null] exactly when no
    entry of the train passes the test.  The bound 1 is the constant
    written in the source; in exact terms an entry passes the test when
    its distance from the query time is below [1 - 2 ^ -54]. *)
Theorem getTrainAtTime_fixed_window entries trainId T :
  (is_Some (getTrainAtTime entries trainId T) <->
     exists e, e ∈ entries /\ SimulationLog.train_id e = trainId /\
               near T e = true) /\
  (forall e, getTrainAtTime entries trainId T = Some e ->
     e ∈ entries /\ SimulationLog.train_id e = trainId /\
     near T e = true /\ (distance T e < 1)%Q) /\
  (getTrainAtTime entries trainId T = None <->
     ~ exists e, e ∈ entries /\ SimulationLog.train_id e = trainId /\
                 near T e = true) /\
  (forall e, near T e = true <-> (distance T e < below_one)%Q).
Proof.
  assert (Hsome : forall e, getTrainAtTime entries trainId T = Some e ->
            e ∈ entries /\ SimulationLog.train_id e = trainId /\
            near T e = true /\ (distance T e < 1)%Q).
  { intros e (l1 & l2 & -> & Hid & Hd & _)%getTrainAtTime_Some_split.
    split_and!; auto; [|by apply near_distance].
    apply elem_of_app. right. apply list_elem_of_here. }
  assert (Hnone : getTrainAtTime entries trainId T = None <->
            ~ exists e, e ∈ entries /\ SimulationLog.train_id e = trainId /\
                        near T e = true).
  { rewrite getTrainAtTime_None. split.
    - intros H (e & He & Hid & Hd). rewrite (H e He Hid) in Hd. discriminate.
    - intros H e He Hid. apply not_true_iff_false. intros Hd. apply H. eauto. }
  split_and!; auto; [|intros e; apply near_window].
  split.
  - intros [e He]. exists e. destruct (Hsome e He) as (? & ? & ? & _). auto.
  - intros Hex. destruct (getTrainAtTime entries trainId T) eqn:Hg; [eauto|].
    exfalso. apply Hnone in Hex; auto.
Qed.

Lemma getTrainsAtTime_elem entries T e :
  e ∈ getTrainsAtTime entries T <-> e ∈ entries /\ near T e = true.
Proof. unfold getTrainsAtTime. apply elem_of_filter_bool. Qed.

Lemma getTrainsAtTime_sublist entries T :
  sublist (getTrainsAtTime entries T) entries.
Proof.
  unfold getTrainsAtTime.
  induction entries as [|a l IH]; simpl; [constructor|].
  destruct (near T a); by constructor.
Qed.

Lemma getTrainAtTime_head entries trainId T :
  getTrainAtTime entries trainId T =
  head (List.filter (of_train trainId) (getTrainsAtTime entries T)).
Proof.
  unfold getTrainAtTime, getTrainsAtTime.
  rewrite find_head_filter. f_equal. apply filter_filter_swap.
Qed.

(** C2 (as the code has it): [getTrainsAtTime] returns, in ingestion order,
    every entry of the log that passes the test of the code,
    [Math.abs(log.time - time) < 1] with the difference rounded as binary64
    rounds it, however many of them belong to one train; in exact terms
    these are the entries whose distance from the query time is below
    [1 - 2 ^ -54], so every returned entry is less than 1 away from the
    query time; for each train, the first of the returned entries that
    belongs to it is the entry [getTrainAtTime] returns for that train. *)
Theorem getTrainsAtTime_all_in_window entries T :
  (forall e, e ∈ getTrainsAtTime entries T <->
             e ∈ entries /\ near T e = true) /\
  (forall e, e ∈ getTrainsAtTime entries T <->
             e ∈ entries /\ (distance T e < below_one)%Q) /\
  (forall e, e ∈ getTrainsAtTime entries T -> (distance T e < 1)%Q) /\
  sublist (getTrainsAtTime entries T) entries /\
  (forall trainId,
     getTrainAtTime entries trainId T =
     head (List.filter (of_train trainId) (getTrainsAtTime entries T))).
Proof.
  split_and!.
  - intros e. apply getTrainsAtTime_elem.
  - intros e. rewrite getTrainsAtTime_elem, near_window. reflexivity.
  - intros e [_ Hnear]%getTrainsAtTime_elem. by apply near_distance.
  - apply getTrainsAtTime_sublist.
  - intros trainId. apply getTrainAtTime_head.
Qed.

(** C1 fails as stated.  With train A observed at 4.5 and at 5, the query
    at 5 returns the entry at 4.5 although the entry at 5 is closer; with
    train A observed at 4.5 and at 5.5, the query at 5 returns the entry
    ingested first, not the one ingested later. *)
Lemma getTrainAtTime_not_closest_not_later :
  getTrainAtTime Fixtures.closer_log "A" 5 = Some (entry (9 # 2) "A" "moving") /\
  ~ returns_closest Fixtures.closer_log "A" 5 /\
  getTrainAtTime Fixtures.tie_log "A" 5 = Some (entry (9 # 2) "A" "moving") /\
  ~ later_wins_ties Fixtures.tie_log "A" 5.
Proof.
  split_and!.
  - reflexivity.
  - intros H.
    specialize (H (entry (9 # 2) "A" "moving") eq_refl (entry 5 "A" "stopped")).
    assert (Hle : (distance 5 (entry (9 # 2) "A" "moving")
                   <= distance 5 (entry 5 "A" "stopped"))%Q).
    { apply H.
      - unfold Fixtures.closer_log. set_solver.
      - reflexivity.
      - reflexivity. }
    vm_compute in Hle. apply Hle. reflexivity.
  - reflexivity.
  - intros H.
    destruct (H (entry (9 # 2) "A" "moving") eq_refl) as (i & Hi & Hlast).
    destruct i as [|i].
    + specialize (Hlast 1%nat (entry (11 # 2) "A" "stopped") eq_refl eq_refl).
      assert (1 <= 0)%nat; [|lia].
      apply Hlast. reflexivity.
    + destruct i as [|i]; simpl in Hi; discriminate Hi.
Qed.

(** C2 fails as stated.  With train A observed at 4.5 and at 5.5, the query
    at 5 returns both entries, which carry the same train id. *)
Lemma getTrainsAtTime_two_of_one_train :
  getTrainsAtTime Fixtures.tie_log 5 = Fixtures.tie_log /\
  ~ one_per_train (getTrainsAtTime Fixtures.tie_log 5).
Proof.
  split; [reflexivity|].
  unfold one_per_train. intros H.
  change (NoDup ["A"; "A"]%string) in H.
  apply NoDup_cons in H as [Hnotin _]. apply Hnotin. set_solver.
Qed.

(** C7 fails as stated.  A caller who means a tolerance of 0.5 still gets
    the entry at 4.25 for the query at 5, which is 0.75 away; and with the
    tolerance 1 the entry at 4, exactly 1 away from 5, is within tolerance
    and is not returned. *)
Lemma getTrainAtTime_ignores_tolerance :
  ~ answers_only_within Fixtures.sparse_log "A" 5 (1 # 2) /\
  (in_tolerance Fixtures.edge_log "A" 5 1 /\
   getTrainAtTime Fixtures.edge_log "A" 5 = None).
Proof.
  split_and!.
  - intros H. destruct H as (e & He & _ & Hd).
    + exists (entry (17 # 4) "A" "moving"). reflexivity.
    + unfold Fixtures.sparse_log in He.
      apply list_elem_of_singleton in He as ->.
      vm_compute in Hd. apply Hd. reflexivity.
  - exists (entry 4 "A" "moving"). split_and!.
    + unfold Fixtures.edge_log. set_solver.
    + reflexivity.
    + vm_compute. discriminate.
  - reflexivity.
Qed.

End LogQueries.

(** ** The session state *)

Section Session.
Import SimulationContext Design.
Implicit Types (s prev : SimulationState) (o : Settled) (t : Q).

Lemma runSimulation_begin_frame s : same_run s (runSimulation_begin s).
Proof. repeat split. Qed.

Lemma runSimulation_settle_failed_frame trains0 o prev :
  failed o = true ->
  same_run prev (runSimulation_settle trains0 o prev) /\
  trains (runSimulation_settle trains0 o prev) = trains prev /\
  isRunning (runSimulation_settle trains0 o prev) = false.
Proof.
  destruct o as [response|e]; simpl.
  - intros Hfail. apply negb_true_iff in Hfail. rewrite Hfail.
    repeat split.
  - intros _. repeat split.
Qed.

Lemma runSimulation_failed_reason trains0 o s :
  failed o = true ->
  error (runSimulation trains0 o s) =
  Some match o with
       | Fulfilled response =>
           message_or "Simulation failed" (SimulationResponse.message response)
       | Rejected e => thrown_message e
       end.
Proof.
  unfold runSimulation. destruct o as [response|e]; simpl; [|reflexivity].
  intros Hfail. apply negb_true_iff in Hfail. rewrite Hfail. reflexivity.
Qed.

(** C4: when a run fails, because the solver answers [success = false] or
    because the request throws, the logs, the network, the metrics and
    [currentTime] of the session are what they were before the call; the
    call clears [isRunning] and reports the reason of the failure in
    [error]: the message of the response, or ['Simulation failed'] when the
    response has no message or an empty one, if the solver answered; the
    message of the error, or ['Unknown error occurred'] when what was
    thrown is not an [Error], if the request threw. *)
Theorem runSimulation_failure_keeps_run trains0 o s :
  failed o = true ->
  logs (runSimulation trains0 o s) = logs s /\
  network (runSimulation trains0 o s) = network s /\
  metrics (runSimulation trains0 o s) = metrics s /\
  currentTime (runSimulation trains0 o s) = currentTime s /\
  trains (runSimulation trains0 o s) = trains s /\
  isRunning (runSimulation trains0 o s) = false /\
  error (runSimulation trains0 o s) =
    Some match o with
         | Fulfilled response =>
             match SimulationResponse.message response with
             | Some m =>
                 if decide (m = ""%string) then "Simulation failed"%string
                 else m
             | None => "Simulation failed"%string
             end
         | Rejected (ErrorObject m) => m
         | Rejected OtherValue => "Unknown error occurred"%string
         end.
Proof.
  intros Hfail. unfold runSimulation.
  destruct (runSimulation_settle_failed_frame trains0 o
              (runSimulation_begin s) Hfail)
    as ((Hl & Hn & Hm & Hc) & Ht & Hr).
  rewrite Hl, Hn, Hm, Hc, Ht, Hr.
  split_and!; try reflexivity.
  destruct o as [response|[m|]]; simpl; [|reflexivity|reflexivity].
  simpl in Hfail. apply negb_true_iff in Hfail. rewrite Hfail.
  reflexivity.
Qed.

(** A run that the solver rejects with a message, on a session with an
    installed run scrubbed to time 20. *)
Lemma runSimulation_failure_keeps_run_rejected :
  failed (Fulfilled Fixtures.rejection) = true /\
  (logs (runSimulation [] (Fulfilled Fixtures.rejection) Fixtures.loaded)
     = logs Fixtures.loaded /\
   network (runSimulation [] (Fulfilled Fixtures.rejection) Fixtures.loaded)
     = network Fixtures.loaded /\
   metrics (runSimulation [] (Fulfilled Fixtures.rejection) Fixtures.loaded)
     = metrics Fixtures.loaded /\
   currentTime (runSimulation [] (Fulfilled Fixtures.rejection) Fixtures.loaded)
     = currentTime Fixtures.loaded /\
   trains (runSimulation [] (Fulfilled Fixtures.rejection) Fixtures.loaded)
     = trains Fixtures.loaded /\
   isRunning (runSimulation [] (Fulfilled Fixtures.rejection) Fixtures.loaded)
     = false /\
   error (runSimulation [] (Fulfilled Fixtures.rejection) Fixtures.loaded)
     = Some "No feasible schedule"%string).
Proof.
  split; [reflexivity|].
  apply (runSimulation_failure_keeps_run [] (Fulfilled Fixtures.rejection)
           Fixtures.loaded).
  reflexivity.
Defined.

Lemma setCurrentTime_frame (v : TimeValue) s :
  logs (setCurrentTime v s) = logs s /\
  metrics (setCurrentTime v s) = metrics s /\
  network (setCurrentTime v s) = network s /\
  trains (setCurrentTime v s) = trains s /\
  isRunning (setCurrentTime v s) = isRunning s /\
  error (setCurrentTime v s) = error s.
Proof. repeat split. Qed.

(** C10: [setCurrentTime(t)] changes the [currentTime] field only; the
    logs, the metrics, the network, the trains, [isRunning] and [error] of
    the session are the ones it had. *)
Theorem setCurrentTime_changes_only_currentTime t s :
  logs (setCurrentTime (Num t) s) = logs s /\
  metrics (setCurrentTime (Num t) s) = metrics s /\
  network (setCurrentTime (Num t) s) = network s /\
  trains (setCurrentTime (Num t) s) = trains s /\
  isRunning (setCurrentTime (Num t) s) = isRunning s /\
  error (setCurrentTime (Num t) s) = error s /\
  setCurrentTime (Num t) s =
    {| isRunning := isRunning s; logs := logs s; metrics := metrics s;
       network := network s; currentTime := Num t; trains := trains s;
       error := error s |}.
Proof.
  destruct (setCurrentTime_frame (Num t) s) as (? & ? & ? & ? & ? & ?).
  split_and!; auto.
Qed.

(** C6 (as the code has it): [setCurrentTime(t)] stores [t] itself, whatever
    the playback state and the log; after a seek [currentTime] lies between
    0 and the largest log time exactly when [t] does. *)
Theorem setCurrentTime_stores_argument t s :
  currentTime (setCurrentTime (Num t) s) = Num t /\
  (seek_clamped t s <-> (0 <= t <= SimulationControl.maxLogTime (logs s))%Q).
Proof.
  split; [reflexivity|].
  unfold seek_clamped. simpl. split.
  - intros (t' & [= <-] & Hrange). exact Hrange.
  - intros Hrange. exists t. auto.
Qed.

(** C6 fails as stated.  On a session whose log ends at 25, seeking to -5
    leaves -5 in [currentTime] and seeking to 100 leaves 100. *)
Lemma setCurrentTime_does_not_clamp :
  SimulationControl.maxLogTime (logs Fixtures.loaded) = 25%Q /\
  currentTime (setCurrentTime (Num (-5)) Fixtures.loaded) = Num (-5) /\
  ~ seek_clamped (-5) Fixtures.loaded /\
  currentTime (setCurrentTime (Num 100) Fixtures.loaded) = Num 100 /\
  ~ seek_clamped 100 Fixtures.loaded.
Proof.
  split_and!; try reflexivity.
  - intros (t' & [= <-] & Hlo & _). vm_compute in Hlo. apply Hlo. reflexivity.
  - intros (t' & [= <-] & _ & Hhi). vm_compute in Hhi. apply Hhi. reflexivity.
Qed.

End Session.

(** ** The playback control *)

Section Playback.
Import SimulationContext SimulationControl Design.
Implicit Types (w : World) (n : nat).

Lemma tick_ui w : ui (tick w) = ui w.
Proof. unfold tick. destruct (autoPlay w); reflexivity. Qed.

Lemma tick_logs w : logs (session (tick w)) = logs (session w).
Proof. unfold tick. destruct (autoPlay w); reflexivity. Qed.

Lemma tick_autoPlay w : autoPlay (tick w) = autoPlay w.
Proof. unfold autoPlay. rewrite tick_ui, tick_logs. reflexivity. Qed.

Lemma tick_currentTime w :
  autoPlay w = true ->
  currentTime (session (tick w)) =
  Fn {| captured_playbackSpeed := playbackSpeed (ui w);
        captured_maxLogTime := maxLogTime (logs (session w)) |}.
Proof. unfold tick. intros ->. reflexivity. Qed.

Lemma ticks_ui n w : ui (ticks n w) = ui w.
Proof.
  revert w. induction n as [|n IH]; intros w; simpl; [reflexivity|].
  rewrite IH. apply tick_ui.
Qed.

Lemma ticks_logs n w : logs (session (ticks n w)) = logs (session w).
Proof.
  revert w. induction n as [|n IH]; intros w; simpl; [reflexivity|].
  rewrite IH. apply tick_logs.
Qed.

Lemma ticks_succ n w : ticks (S n) w = tick (ticks n w).
Proof.
  revert w. induction n as [|n IH]; intros w; [reflexivity|].
  change (ticks (S (S n)) w) with (ticks (S n) (tick w)).
  rewrite IH. reflexivity.
Qed.

Lemma ticks_autoPlay n w : autoPlay (ticks n w) = autoPlay w.
Proof. unfold autoPlay. rewrite ticks_ui, ticks_logs. reflexivity. Qed.

(** While the interval is installed, every firing leaves the arrow
    function in [currentTime] and playback goes on. *)
Lemma ticks_store_updater n w :
  autoPlay w = true ->
  currentTime (session (ticks (S n) w)) =
    Fn {| captured_playbackSpeed := playbackSpeed (ui w);
          captured_maxLogTime := maxLogTime (logs (session w)) |} /\
  isPlaying (ui (ticks (S n) w)) = true.
Proof.
  intros Hplay. split.
  - rewrite ticks_succ, tick_currentTime by (by rewrite ticks_autoPlay).
    rewrite ticks_ui, ticks_logs. reflexivity.
  - rewrite ticks_ui. unfold autoPlay in Hplay.
    apply andb_true_iff in Hplay as [Hp _]. exact Hp.
Qed.

(** The arrow function itself clamps and pauses: applied to a time from
    which one step reaches the end of the log, it yields the end of the
    log and calls [setIsPlaying(false)]; otherwise it yields the advanced
    time. *)
Lemma updater_apply_spec (u : TickUpdater) (prev : Q) :
  let nextTime := fl (prev + fl (captured_playbackSpeed u * 10)) in
  ((captured_maxLogTime u <= nextTime)%Q ->
     updater_apply u prev = (captured_maxLogTime u, true)) /\
  ((nextTime < captured_maxLogTime u)%Q ->
     updater_apply u prev = (nextTime, false)).
Proof.
  unfold updater_apply. simpl. split; intros H.
  - apply Qgeb_le in H. rewrite H. reflexivity.
  - destruct (Qgeb _ _) eqn:Hge; [|reflexivity].
    apply Qgeb_le in Hge. exfalso. apply (Qlt_not_le _ _ H Hge).
Qed.

(** C5, evaluated on the code.  A session whose log ends at 25 is played
    back from time 20 at speed 1.  The arrow function of the effect, had
    it been applied to 20, yields 25 and pauses.  The tick instead stores
    the arrow function in [currentTime]: after any number of ticks
    [currentTime] holds no number and [isPlaying] is still true. *)
Theorem tick_stores_updater_and_never_pauses :
  autoPlay Fixtures.playing = true /\
  maxLogTime (logs (session Fixtures.playing)) = 25%Q /\
  updater_apply {| captured_playbackSpeed := 1; captured_maxLogTime := 25 |} 20
    = (25%Q, true) /\
  currentTime (session (tick Fixtures.playing)) =
    Fn {| captured_playbackSpeed := 1; captured_maxLogTime := 25 |} /\
  forall n,
    isPlaying (ui (ticks (S n) Fixtures.playing)) = true /\
    forall t, currentTime (session (ticks (S n) Fixtures.playing)) <> Num t.
Proof.
  split_and!; try reflexivity.
  intros n.
  destruct (ticks_store_updater n Fixtures.playing eq_refl) as [Hc Hp].
  split; [exact Hp|]. intros t. rewrite Hc. discriminate.
Qed.

(** C3 (as the code has it): pressing play on an empty log does not touch
    the component's cells, so [isPlaying] keeps its value; it sets no
    error, marks the session as running and sends one request for a run of
    the two sample trains with the selected priority rule and horizon. *)
Theorem handlePlay_empty_log_starts_sample_run w :
  logs (session w) = [] ->
  ui (handlePlay w) = ui w /\
  isPlaying (ui (handlePlay w)) = isPlaying (ui w) /\
  error (session (handlePlay w)) = None /\
  isRunning (session (handlePlay w)) = true /\
  same_run (session w) (session (handlePlay w)) /\
  sent (handlePlay w) =
    sent w ++ [ {| SimulationRequest.trains := sampleTrains;
                   SimulationRequest.priority_rule := priorityRule (ui w);
                   SimulationRequest.max_time := maxTime (ui w);
                   SimulationRequest.time_step := 1 |} ].
Proof.
  intros Hempty. unfold handlePlay. rewrite Hempty. simpl.
  repeat split.
Qed.

(** Play pressed on the fresh session. *)
Lemma handlePlay_empty_log_initial :
  logs (session initialWorld) = [] /\
  (ui (handlePlay initialWorld) = ui initialWorld /\
   isPlaying (ui (handlePlay initialWorld)) = isPlaying (ui initialWorld) /\
   error (session (handlePlay initialWorld)) = None /\
   isRunning (session (handlePlay initialWorld)) = true /\
   same_run (session initialWorld) (session (handlePlay initialWorld)) /\
   sent (handlePlay initialWorld) =
     sent initialWorld ++
     [ {| SimulationRequest.trains := sampleTrains;
          SimulationRequest.priority_rule := priorityRule (ui initialWorld);
          SimulationRequest.max_time := maxTime (ui initialWorld);
          SimulationRequest.time_step := 1 |} ]).
Proof.
  split; [reflexivity|].
  apply (handlePlay_empty_log_starts_sample_run initialWorld). reflexivity.
Defined.

(** C3 fails as stated.  On the fresh session, whose log is empty, play
    reports no error and sends a request to the solver. *)
Lemma handlePlay_empty_log_not_refused :
  logs (session initialWorld) = [] /\
  error (session (handlePlay initialWorld)) = None /\
  length (sent (handlePlay initialWorld)) = 1%nat /\
  ~ play_refused initialWorld.
Proof.
  split_and!; try reflexivity.
  intros [[reason Hreason] _]. discriminate Hreason.
Qed.

(** C8 (as the code has it): the change handler of the speed selector
    stores the number it is given as the playback speed, unchecked, and
    touches nothing else; the values the selector offers, 0.5, 1, 2, 5 and
    10, are all strictly positive. *)
Theorem onPlaybackSpeedChange_stores_value (v : Q) w :
  playbackSpeed (ui (onPlaybackSpeedChange v w)) = v /\
  isPlaying (ui (onPlaybackSpeedChange v w)) = isPlaying (ui w) /\
  session (onPlaybackSpeedChange v w) = session w /\
  sent (onPlaybackSpeedChange v w) = sent w /\
  Forall (fun v' => (0 < v')%Q) speedOptions.
Proof.
  split_and!; try reflexivity.
  unfold speedOptions. repeat constructor.
Qed.

(** C8 fails as stated.  The speed -1 given to the change handler becomes
    the playback speed, no error is recorded, and the next tick of a
    running playback takes it. *)
Lemma onPlaybackSpeedChange_accepts_negative :
  playbackSpeed (ui (onPlaybackSpeedChange (-1) Fixtures.playing)) = (-1)%Q /\
  error (session (onPlaybackSpeedChange (-1) Fixtures.playing)) = None /\
  ~ refuses_speed (-1) Fixtures.playing /\
  currentTime (session (tick (onPlaybackSpeedChange (-1) Fixtures.playing))) =
    Fn {| captured_playbackSpeed := -1; captured_maxLogTime := 25 |}.
Proof.
  split_and!; try reflexivity.
  unfold refuses_speed. simpl. discriminate.
Qed.

End Playback.

(** ** The position update of the network map *)

Section Positions.
Import NetworkMap.
Implicit Types (stations : list Station.t) (trains : list Train.t)
               (m : gmap string Point) (clock : nat -> Z).

Lemma findIndex_find {A : Type} (test : A -> bool) (l : list A) :
  match List.find test l with
  | Some a => (0 <= findIndex test l)%Z /\
              l !! Z.to_nat (findIndex test l) = Some a
  | None => findIndex test l = (-1)%Z
  end.
Proof.
  induction l as [|a l IH]; simpl; [reflexivity|].
  destruct (test a); [split; [lia | reflexivity]|].
  destruct (List.find test l) as [b|].
  - destruct IH as [Hpos Hlook].
    destruct (Z.ltb_spec (findIndex test l) 0) as [Hneg|_]; [lia|].
    split; [lia|].
    replace (Z.to_nat (findIndex test l + 1)) with (S (Z.to_nat (findIndex test l)))
      by lia.
    exact Hlook.
  - rewrite IH. reflexivity.
Qed.


Lemma updateTrain_other stations now m (tr : Train.t) (k : string) :
  Train.id tr <> k ->
  updateTrain stations now m tr !! k = m !! k.
Proof.
  intros Hk. unfold updateTrain.
  repeat (match goal with
          | |- context [if ?b then _ else _] => destruct b
          | |- context [match ?o with Some _ => _ | None => _ end] => destruct o
          end; simpl);
    rewrite ?lookup_insert_ne by exact Hk; reflexivity.
Qed.

Lemma forEach_from_other stations clock trains (k : string) :
  (forall t', t' ∈ trains -> Train.id t' <> k) ->
  forall i m, forEach_from stations clock i trains m !! k = m !! k.
Proof.
  induction trains as [|tr rest IH]; intros Hk i m; simpl; [reflexivity|].
  rewrite IH.
  - apply updateTrain_other, Hk, list_elem_of_here.
  - intros t' Ht'. apply Hk. by apply list_elem_of_further.
Qed.

Lemma forEach_from_app stations clock (l1 l2 : list Train.t) :
  forall i m,
    forEach_from stations clock i (l1 ++ l2) m =
    forEach_from stations clock (i + length l1) l2
      (forEach_from stations clock i l1 m).
Proof.
  induction l1 as [|tr l1 IH]; intros i m; simpl.
  - rewrite Nat.add_0_r. reflexivity.
  - rewrite IH. f_equal. lia.
Qed.






End Positions.


(** * Further properties of the code *)

(** ** Runs of the session *)

Section Runs.
Import SimulationContext Design.
Implicit Types (s prev : SimulationState) (o : Settled) (t : Q)
               (response : SimulationResponse.t).

(** X1: a run that the solver answers with [success = true] replaces the
    whole session: the logs, the metrics and the network are those of the
    response, the trains are the ones submitted, the time is 0, nothing is
    running and no error is left, whatever the session held before. *)
Theorem runSimulation_success_replaces_session trains0 response s :
  SimulationResponse.success response = true ->
  runSimulation trains0 (Fulfilled response) s =
  {| isRunning := false;
     logs := SimulationResponse.logs response;
     metrics := Some (SimulationResponse.metrics response);
     network := SimulationResponse.network response;
     currentTime := Num 0;
     trains := trains0;
     error := None |}.
Proof.
  intros Hok. unfold runSimulation. simpl. rewrite Hok. reflexivity.
Qed.

(** A run answered with a log, on a session whose earlier run had failed. *)
Lemma runSimulation_success_after_failure :
  SimulationResponse.success Fixtures.answer = true /\
  runSimulation [] (Fulfilled Fixtures.answer) Fixtures.after_failure =
  {| isRunning := false;
     logs := Fixtures.tie_log;
     metrics := Some Fixtures.some_metrics;
     network := JObj [("blocks"%string, JArr [])];
     currentTime := Num 0;
     trains := [];
     error := None |}.
Proof.
  split; [reflexivity|].
  apply (runSimulation_success_replaces_session [] Fixtures.answer
           Fixtures.after_failure).
  reflexivity.
Defined.

(** X2: a run from a precomputed schedule that succeeds installs the logs,
    the metrics and the network of the response and resets the time to 0,
    and it keeps the [trains] the session had: unlike [runSimulation] it
    installs no train list of its own. *)
Theorem runSimulationFromGA_success_keeps_trains response s :
  SimulationResponse.success response = true ->
  runSimulationFromGA (Fulfilled response) s =
  {| isRunning := false;
     logs := SimulationResponse.logs response;
     metrics := Some (SimulationResponse.metrics response);
     network := SimulationResponse.network response;
     currentTime := Num 0;
     trains := trains s;
     error := None |}.
Proof.
  intros Hok. unfold runSimulationFromGA. simpl. rewrite Hok. reflexivity.
Qed.

(** The same answer to a run from a precomputed schedule. *)
Lemma runSimulationFromGA_success_after_failure :
  SimulationResponse.success Fixtures.answer = true /\
  runSimulationFromGA (Fulfilled Fixtures.answer) Fixtures.after_failure =
  {| isRunning := false;
     logs := Fixtures.tie_log;
     metrics := Some Fixtures.some_metrics;
     network := JObj [("blocks"%string, JArr [])];
     currentTime := Num 0;
     trains := SimulationControl.sampleTrains;
     error := None |}.
Proof.
  split; [reflexivity|].
  apply (runSimulationFromGA_success_keeps_trains Fixtures.answer
           Fixtures.after_failure).
  reflexivity.
Defined.

(** X3: a run from a precomputed schedule that fails changes nothing of
    the session but [isRunning], which it clears, and [error], in which it
    reports the reason of the failure: the message of the response, or
    ['GA simulation failed'] when the response has no message or an empty
    one, if the solver answered; the message of the error, or ['Unknown
    error occurred'] when what was thrown is not an [Error], if the request
    threw. *)
Theorem runSimulationFromGA_failure_keeps_run o s :
  failed o = true ->
  logs (runSimulationFromGA o s) = logs s /\
  network (runSimulationFromGA o s) = network s /\
  metrics (runSimulationFromGA o s) = metrics s /\
  currentTime (runSimulationFromGA o s) = currentTime s /\
  trains (runSimulationFromGA o s) = trains s /\
  isRunning (runSimulationFromGA o s) = false /\
  error (runSimulationFromGA o s) =
    Some match o with
         | Fulfilled response =>
             match SimulationResponse.message response with
             | Some m =>
                 if decide (m = ""%string) then "GA simulation failed"%string
                 else m
             | None => "GA simulation failed"%string
             end
         | Rejected (ErrorObject m) => m
         | Rejected OtherValue => "Unknown error occurred"%string
         end.
Proof.
  unfold runSimulationFromGA. destruct o as [response|[m|]]; simpl.
  - intros Hfail. apply negb_true_iff in Hfail. rewrite Hfail. simpl.
    split_and!; reflexivity.
  - intros _. split_and!; reflexivity.
  - intros _. split_and!; reflexivity.
Qed.

(** A request for a run from a precomputed schedule that throws. *)
Lemma runSimulationFromGA_failure_thrown :
  failed (Rejected (ErrorObject "Network Error")) = true /\
  (logs (runSimulationFromGA (Rejected (ErrorObject "Network Error"))
           Fixtures.loaded) = logs Fixtures.loaded /\
   network (runSimulationFromGA (Rejected (ErrorObject "Network Error"))
              Fixtures.loaded) = network Fixtures.loaded /\
   metrics (runSimulationFromGA (Rejected (ErrorObject "Network Error"))
              Fixtures.loaded) = metrics Fixtures.loaded /\
   currentTime (runSimulationFromGA (Rejected (ErrorObject "Network Error"))
                  Fixtures.loaded) = currentTime Fixtures.loaded /\
   trains (runSimulationFromGA (Rejected (ErrorObject "Network Error"))
             Fixtures.loaded) = trains Fixtures.loaded /\
   isRunning (runSimulationFromGA (Rejected (ErrorObject "Network Error"))
                Fixtures.loaded) = false /\
   error (runSimulationFromGA (Rejected (ErrorObject "Network Error"))
            Fixtures.loaded) = Some "Network Error"%string).
Proof.
  split; [reflexivity|].
  apply (runSimulationFromGA_failure_keeps_run
           (Rejected (ErrorObject "Network Error")) Fixtures.loaded).
  reflexivity.
Defined.

Lemma message_or_nonempty (fallback : string) (message : option string) :
  fallback <> ""%string -> message_or fallback message <> ""%string.
Proof.
  intros Hfb. unfold message_or. destruct message as [m|]; [|exact Hfb].
  destruct (decide (m = ""%string)); assumption.
Qed.

(** X4: when the solver answers [success = false], the reason left in
    [error] is the message of the response if it has a non-empty one, and
    the text ['Simulation failed'] if the message is absent or empty; in
    either case the reason is not the empty string. *)
Theorem runSimulation_rejection_reason trains0 response s :
  SimulationResponse.success response = false ->
  (forall m, SimulationResponse.message response = Some m -> m <> ""%string ->
     error (runSimulation trains0 (Fulfilled response) s) = Some m) /\
  (SimulationResponse.message response = None \/
   SimulationResponse.message response = Some ""%string ->
     error (runSimulation trains0 (Fulfilled response) s)
     = Some "Simulation failed"%string) /\
  exists reason,
    error (runSimulation trains0 (Fulfilled response) s) = Some reason /\
    reason <> ""%string.
Proof.
  intros Hfail. unfold runSimulation. simpl. rewrite Hfail. simpl.
  split_and!.
  - intros m -> Hm. unfold message_or.
    destruct (decide (m = ""%string)); [contradiction|reflexivity].
  - intros [-> | ->]; reflexivity.
  - eexists. split; [reflexivity|].
    apply message_or_nonempty. discriminate.
Qed.

(** The solver rejects a run with a message of its own. *)
Lemma runSimulation_rejection_reason_message :
  SimulationResponse.success Fixtures.rejection = false /\
  error (runSimulation [] (Fulfilled Fixtures.rejection) Fixtures.loaded)
  = Some "No feasible schedule"%string.
Proof.
  split; [reflexivity|].
  apply (proj1 (runSimulation_rejection_reason [] Fixtures.rejection
                  Fixtures.loaded eq_refl)).
  - reflexivity.
  - discriminate.
Defined.

(** X5: a seek made while a run is in flight survives the run if the run
    fails and is undone, the time going back to 0, if the run succeeds. *)
Theorem seek_during_run trains0 o s t :
  currentTime
    (runSimulation_settle trains0 o
       (setCurrentTime (Num t) (runSimulation_begin s)))
  = if failed o then Num t else Num 0.
Proof.
  destruct o as [response|e]; simpl; [|reflexivity].
  destruct (SimulationResponse.success response); reflexivity.
Qed.

End Runs.

(** ** More on the log queries *)

Section LogWindows.
Import SimulationContext Design.
Implicit Types (entries : list SimulationLog.t) (trainId : string) (T : Q)
               (e : SimulationLog.t).

(** X6: for a train that has no entry in the log, and so for every train
    when the log is empty, [getTrainAtTime] answers [null] at every time. *)
Theorem getTrainAtTime_unknown_train entries trainId T :
  (forall e, e ∈ entries -> SimulationLog.train_id e <> trainId) ->
  getTrainAtTime entries trainId T = None.
Proof.
  intros Hnone. apply getTrainAtTime_None.
  intros e He Hid. exfalso. exact (Hnone e He Hid).
Qed.

(** Train B in a log that only has train A. *)
Lemma getTrainAtTime_unknown_train_B :
  (forall e, e ∈ Fixtures.tie_log -> SimulationLog.train_id e <> "B"%string) /\
  getTrainAtTime Fixtures.tie_log "B" 5 = None.
Proof.
  assert (H : forall e, e ∈ Fixtures.tie_log ->
                        SimulationLog.train_id e <> "B"%string).
  { intros e He. unfold Fixtures.tie_log in He.
    apply elem_of_cons in He as [->|He]; [discriminate|].
    apply list_elem_of_singleton in He as ->. discriminate. }
  split; [exact H|].
  apply (getTrainAtTime_unknown_train Fixtures.tie_log "B" 5 H).
Defined.

Lemma integers_within_one (a b : Z) :
  (Qabs (inject_Z a - inject_Z b) < 1)%Q <-> a = b.
Proof.
  rewrite Qabs_Qlt_condition.
  unfold Qlt, Qle, Qminus, Qplus, Qopp, inject_Z. simpl. lia.
Qed.

(** X7: on the integer grid the window is an exact match.  When the times
    of the log and the query time are whole numbers, [getTrainsAtTime]
    returns exactly the entries whose time equals the query time. *)
Theorem getTrainsAtTime_integer_grid entries (k : Z) :
  (forall e, e ∈ entries ->
     exists z : Z, (SimulationLog.time e == inject_Z z)%Q) ->
  forall e, e ∈ getTrainsAtTime entries (inject_Z k) <->
            e ∈ entries /\ (SimulationLog.time e == inject_Z k)%Q.
Proof.
  intros Hgrid e. rewrite getTrainsAtTime_elem.
  split; intros [He Hd]; (split; [exact He|]);
    destruct (Hgrid e He) as [z Hz].
  - apply near_distance in Hd. unfold distance in Hd.
    rewrite Hz in Hd. apply integers_within_one in Hd. rewrite Hz, Hd.
    reflexivity.
  - apply near_same, Hd.
Qed.

(** The log with train A at 0 and at 25, queried at 25. *)
Lemma getTrainsAtTime_integer_grid_short_log :
  (forall e, e ∈ Fixtures.short_log ->
     exists z : Z, (SimulationLog.time e == inject_Z z)%Q) /\
  (forall e, e ∈ getTrainsAtTime Fixtures.short_log (inject_Z 25) <->
             e ∈ Fixtures.short_log /\ (SimulationLog.time e == inject_Z 25)%Q).
Proof.
  assert (H : forall e, e ∈ Fixtures.short_log ->
                exists z : Z, (SimulationLog.time e == inject_Z z)%Q).
  { intros e He. unfold Fixtures.short_log in He.
    apply elem_of_cons in He as [->|He].
    - exists 0%Z. reflexivity.
    - apply list_elem_of_singleton in He as ->. exists 25%Z. reflexivity. }
  split; [exact H|].
  apply (getTrainsAtTime_integer_grid Fixtures.short_log 25 H).
Defined.

(** Two entries inside the window of one query are less than 2 apart. *)
Lemma near_near_close T (a b : SimulationLog.t) :
  (distance T a < 1)%Q -> (distance T b < 1)%Q ->
  (Qabs (SimulationLog.time a - SimulationLog.time b) < 2)%Q.
Proof.
  unfold distance. rewrite !Qabs_Qlt_condition. intros [? ?] [? ?].
  split; lra.
Qed.

Lemma spaced_tail (a : SimulationLog.t) entries :
  spaced (a :: entries) -> spaced entries.
Proof.
  intros H i j x y Hij Hi Hj Hid.
  apply (H (S i) (S j) x y); auto.
Qed.

(** X8: in a log where the entries of each train are at least 2 time units
    apart, [getTrainsAtTime] returns at most one entry per train at every
    query time. *)
Theorem getTrainsAtTime_one_per_train_when_spaced entries T :
  spaced entries ->
  NoDup (List.map SimulationLog.train_id (getTrainsAtTime entries T)).
Proof.
  induction entries as [|a l IH]; intros Hsp.
  - simpl. constructor.
  - unfold getTrainsAtTime in *. simpl.
    destruct (near T a) eqn:Ha; [|apply IH, (spaced_tail a), Hsp].
    simpl. constructor; [|apply IH, (spaced_tail a), Hsp].
    intros Hin. change (List.map SimulationLog.train_id) with
      (fmap (M:=list) SimulationLog.train_id) in Hin.
    apply list_elem_of_fmap in Hin as (b & Hid & Hb).
    apply elem_of_filter_bool in Hb as [Hb Hnb].
    apply list_elem_of_lookup in Hb as [j Hj].
    apply near_distance in Ha, Hnb.
    pose proof (near_near_close T a b Ha Hnb) as Hclose.
    assert (Hfar : (2 <= Qabs (SimulationLog.time a - SimulationLog.time b))%Q).
    { apply (Hsp 0%nat (S j) a b); auto. }
    apply (Qlt_not_le _ _ Hclose Hfar).
Qed.

(** The log with train A at 0 and at 25 is spaced; queried at 25. *)
Lemma getTrainsAtTime_one_per_train_short_log :
  spaced Fixtures.short_log /\
  NoDup (List.map SimulationLog.train_id
           (getTrainsAtTime Fixtures.short_log 25)).
Proof.
  assert (H : spaced Fixtures.short_log).
  { intros i j a b Hij Hi Hj _. unfold Fixtures.short_log in Hi, Hj.
    destruct i as [|[|i]], j as [|[|j]]; simpl in Hi, Hj;
      try discriminate; try congruence;
      injection Hi as <-; injection Hj as <-; vm_compute; discriminate. }
  split; [exact H|].
  apply (getTrainsAtTime_one_per_train_when_spaced Fixtures.short_log 25 H).
Defined.

(** X9: the two queries agree on emptiness: [getTrainsAtTime] returns no
    entry at a time exactly when [getTrainAtTime] answers [null] at that
    time for every train. *)
Theorem getTrainsAtTime_empty_iff entries T :
  getTrainsAtTime entries T = [] <->
  forall trainId, getTrainAtTime entries trainId T = None.
Proof.
  split.
  - intros Hempty trainId. rewrite getTrainAtTime_head, Hempty. reflexivity.
  - intros Hnone. destruct (getTrainsAtTime entries T) as [|e l] eqn:Hres;
      [reflexivity|].
    specialize (Hnone (SimulationLog.train_id e)).
    rewrite getTrainAtTime_head, Hres in Hnone. simpl in Hnone.
    unfold of_train in Hnone. rewrite bool_decide_eq_true_2 in Hnone by reflexivity.
    discriminate Hnone.
Qed.

End LogWindows.

(** ** More on the playback control *)

Section Controls.
Import SimulationContext SimulationControl Design.
Implicit Types (w : World) (n : nat).

Lemma fold_left_Qmax (ts : list Q) :
  forall t : Q,
    (t <= fold_left Qmax ts t)%Q /\
    (forall a, a ∈ ts -> (a <= fold_left Qmax ts t)%Q) /\
    (fold_left Qmax ts t = t \/ fold_left Qmax ts t ∈ ts).
Proof.
  induction ts as [|a ts IH]; intros t; simpl.
  - split_and!; [apply Qle_refl | intros a Ha; inversion Ha | by left].
  - destruct (IH (Qmax t a)) as (Hge & Hall & Hmem). split_and!.
    + eapply Qle_trans; [apply Q.le_max_l | exact Hge].
    + intros b [->|Hb]%elem_of_cons; [|by apply Hall].
      eapply Qle_trans; [apply Q.le_max_r | exact Hge].
    + destruct Hmem as [Hm|Hm].
      * rewrite Hm. unfold Qmax, GenericMinMax.gmax.
        destruct (t ?= a)%Q; [by left | right | by left];
          apply list_elem_of_here.
      * right. by apply list_elem_of_further.
Qed.

(** X10: the end of the log shown by the control is the largest time of the
    log: no entry is later, some entry has exactly that time when the log is
    not empty, and it is 0 for the empty log. *)
Theorem maxLogTime_is_largest_time (entries : list SimulationLog.t) :
  (forall e, e ∈ entries -> (SimulationLog.time e <= maxLogTime entries)%Q) /\
  (entries <> [] ->
     exists e, e ∈ entries /\ maxLogTime entries = SimulationLog.time e) /\
  maxLogTime [] = 0%Q.
Proof.
  split_and!; [| |reflexivity].
  - intros e He. unfold maxLogTime.
    destruct entries as [|a l]; [inversion He|]. simpl.
    destruct (fold_left_Qmax (List.map SimulationLog.time l)
                (SimulationLog.time a)) as (Hge & Hall & _).
    apply elem_of_cons in He as [->|He]; [exact Hge|].
    apply Hall. change (List.map SimulationLog.time l)
      with (SimulationLog.time <$> l). by apply list_elem_of_fmap_2.
  - intros Hne. unfold maxLogTime.
    destruct entries as [|a l]; [contradiction|]. simpl.
    destruct (fold_left_Qmax (List.map SimulationLog.time l)
                (SimulationLog.time a)) as (_ & _ & [Hm|Hm]).
    + exists a. split; [apply list_elem_of_here | exact Hm].
    + change (List.map SimulationLog.time l)
        with (SimulationLog.time <$> l) in Hm.
      apply list_elem_of_fmap in Hm as (e & Heq & He).
      exists e. split; [by apply list_elem_of_further | exact Heq].
Qed.

Lemma tick_idle w :
  isPlaying (ui w) = false \/ logs (session w) = [] -> tick w = w.
Proof.
  unfold tick, autoPlay. intros [-> | ->]; [reflexivity|].
  simpl. rewrite andb_false_r. reflexivity.
Qed.

Lemma ticks_idle n w :
  isPlaying (ui w) = false \/ logs (session w) = [] -> ticks n w = w.
Proof.
  intros Hidle. induction n as [|n IH]; simpl; [reflexivity|].
  rewrite (tick_idle w Hidle). exact IH.
Qed.

(** X12: while playback is not on, or while the log is empty, ticks change
    nothing at all. *)
Theorem ticks_without_playback_do_nothing n w :
  isPlaying (ui w) = false \/ logs (session w) = [] -> ticks n w = w.
Proof. apply ticks_idle. Qed.

(** Seven ticks on the installed session that is not being played back. *)
Lemma ticks_without_playback_paused :
  (isPlaying (ui Fixtures.paused) = false \/
   logs (session Fixtures.paused) = []) /\
  ticks 7 Fixtures.paused = Fixtures.paused.
Proof.
  split; [left; reflexivity|].
  apply (ticks_without_playback_do_nothing 7 Fixtures.paused).
  left. reflexivity.
Defined.

(** X13: on a session with a log that is not being played back, Play
    followed by Pause gives back the very state it started from. *)
Theorem play_then_pause_restores w :
  logs (session w) <> [] -> isPlaying (ui w) = false ->
  handlePause (handlePlay w) = w.
Proof.
  destruct w as [s [p sp mt pr] snt]. simpl. intros Hlogs ->.
  unfold handlePlay, handlePause. simpl.
  destruct (logs s) as [|e l]; [contradiction|]. reflexivity.
Qed.

(** Play then Pause on the installed session. *)
Lemma play_then_pause_paused :
  logs (session Fixtures.paused) <> [] /\
  isPlaying (ui Fixtures.paused) = false /\
  handlePause (handlePlay Fixtures.paused) = Fixtures.paused.
Proof.
  split; [discriminate|]. split; [reflexivity|].
  apply (play_then_pause_restores Fixtures.paused);
    [discriminate | reflexivity].
Defined.

(** X14: Stop ends the playback and puts the number 0 in [currentTime],
    whatever the slot held; the logs, the metrics and the network stay, and
    ticks that follow change nothing. *)
Theorem handleStop_rewinds w :
  isPlaying (ui (handleStop w)) = false /\
  currentTime (session (handleStop w)) = Num 0 /\
  logs (session (handleStop w)) = logs (session w) /\
  metrics (session (handleStop w)) = metrics (session w) /\
  network (session (handleStop w)) = network (session w) /\
  forall n, ticks n (handleStop w) = handleStop w.
Proof.
  split_and!; try reflexivity.
  intros n. apply ticks_idle. left. reflexivity.
Qed.

(** X15: a second click on Play while the sample run it started is in flight
    does nothing: the button is disabled while the session is running, so
    one request is sent, not two. *)
Theorem clickPlay_twice_sends_once w :
  logs (session w) = [] -> isRunning (session w) = false ->
  clickPlay (clickPlay w) = clickPlay w /\
  sent (clickPlay (clickPlay w)) =
    sent w ++ [request sampleTrains (Some (priorityRule (ui w)))
                 (Some (maxTime (ui w)))].
Proof.
  intros Hlogs Hrun.
  assert (Hfirst : clickPlay w = handlePlay w).
  { unfold clickPlay. rewrite Hrun. reflexivity. }
  assert (Hsecond : clickPlay (handlePlay w) = handlePlay w).
  { unfold clickPlay, handlePlay. rewrite Hlogs. reflexivity. }
  rewrite Hfirst, Hsecond. split; [reflexivity|].
  unfold handlePlay. rewrite Hlogs. reflexivity.
Qed.

(** Two clicks on Play on the fresh session. *)
Lemma clickPlay_twice_initial :
  logs (session initialWorld) = [] /\
  isRunning (session initialWorld) = false /\
  clickPlay (clickPlay initialWorld) = clickPlay initialWorld /\
  sent (clickPlay (clickPlay initialWorld)) =
    sent initialWorld ++
    [request sampleTrains (Some (priorityRule (ui initialWorld)))
       (Some (maxTime (ui initialWorld)))].
Proof.
  split; [reflexivity|]. split; [reflexivity|].
  apply (clickPlay_twice_sends_once initialWorld); reflexivity.
Defined.

(** X16: Reset brings the session back to its initial value and ends the
    playback, whatever the state; a click on Play after it therefore starts
    a sample run with the priority rule and horizon still selected. *)
Theorem reset_then_play_starts_sample_run w :
  session (clickReset w) = initialState /\
  isPlaying (ui (clickReset w)) = false /\
  isRunning (session (clickPlay (clickReset w))) = true /\
  isPlaying (ui (clickPlay (clickReset w))) = false /\
  sent (clickPlay (clickReset w)) =
    sent w ++ [request sampleTrains (Some (priorityRule (ui w)))
                 (Some (maxTime (ui w)))].
Proof. repeat split. Qed.

(** X18: Start, then Play.  On a session without a log and without a run in
    flight, a click on Play sends the sample run; once the solver has
    answered it with a log that is not empty, a second click on Play starts
    the playback of that log at time 0 and sends nothing more. *)
Theorem start_then_play w (response : SimulationResponse.t) :
  logs (session w) = [] -> isRunning (session w) = false ->
  SimulationResponse.success response = true ->
  SimulationResponse.logs response <> [] ->
  isPlaying (ui (clickPlay (sampleRunSettles (Fulfilled response) (clickPlay w))))
    = true /\
  logs (session (clickPlay (sampleRunSettles (Fulfilled response) (clickPlay w))))
    = SimulationResponse.logs response /\
  currentTime
    (session (clickPlay (sampleRunSettles (Fulfilled response) (clickPlay w))))
    = Num 0 /\
  sent (clickPlay (sampleRunSettles (Fulfilled response) (clickPlay w))) =
    sent w ++ [request sampleTrains (Some (priorityRule (ui w)))
                 (Some (maxTime (ui w)))].
Proof.
  intros Hlogs Hrun Hok Hne.
  unfold clickPlay, sampleRunSettles, handlePlay.
  rewrite Hrun, Hlogs. simpl. rewrite Hok. simpl.
  destruct (SimulationResponse.logs response) as [|e l]; [contradiction|].
  simpl. repeat split.
Qed.

(** The fresh session, the solver answering with a log of two entries. *)
Lemma start_then_play_initial :
  logs (session initialWorld) = [] /\
  isRunning (session initialWorld) = false /\
  SimulationResponse.success Fixtures.answer = true /\
  SimulationResponse.logs Fixtures.answer <> [] /\
  isPlaying (ui (clickPlay (sampleRunSettles (Fulfilled Fixtures.answer)
                              (clickPlay initialWorld)))) = true /\
  logs (session (clickPlay (sampleRunSettles (Fulfilled Fixtures.answer)
                              (clickPlay initialWorld))))
    = SimulationResponse.logs Fixtures.answer /\
  currentTime
    (session (clickPlay (sampleRunSettles (Fulfilled Fixtures.answer)
                           (clickPlay initialWorld))))
    = Num 0 /\
  sent (clickPlay (sampleRunSettles (Fulfilled Fixtures.answer)
                     (clickPlay initialWorld))) =
    sent initialWorld ++
    [request sampleTrains (Some (priorityRule (ui initialWorld)))
       (Some (maxTime (ui initialWorld)))].
Proof.
  split; [reflexivity|]. split; [reflexivity|]. split; [reflexivity|].
  split; [discriminate|].
  apply (start_then_play initialWorld Fixtures.answer);
    [reflexivity | reflexivity | reflexivity | discriminate].
Defined.

End Controls.

(** ** More on the position update of the network map *)

Section MapPositions.
Import NetworkMap.
Implicit Types (stations : list Station.t) (trains : list Train.t)
               (m : gmap string Point) (clock : nat -> Z).

Lemma updateTrain_at_station stations now m (tr : Train.t) (o : Station.t) :
  List.find (hasId (Train.currentStation tr)) stations = Some o ->
  List.find (hasId (Train.nextStation tr)) stations = None ->
  updateTrain stations now m tr = <[Train.id tr := Station.position o]> m.
Proof.
  intros Ho Hd. unfold updateTrain.
  pose proof (findIndex_find (hasId (Train.currentStation tr)) stations) as Hc.
  pose proof (findIndex_find (hasId (Train.nextStation tr)) stations) as Hn.
  rewrite Ho in Hc. rewrite Hd in Hn. destruct Hc as [Hc0 Hc1].
  apply Z.leb_le in Hc0. rewrite Hc0, Hn, Hc1. reflexivity.
Qed.

Lemma updateTrain_unresolved stations now m (tr : Train.t) :
  List.find (hasId (Train.currentStation tr)) stations = None ->
  updateTrain stations now m tr = m.
Proof.
  intros Ho. unfold updateTrain.
  pose proof (findIndex_find (hasId (Train.currentStation tr)) stations) as Hc.
  rewrite Ho in Hc. rewrite Hc. reflexivity.
Qed.

Lemma updateTrain_dom stations now m (tr : Train.t) :
  dom m ⊆ dom (updateTrain stations now m tr).
Proof.
  unfold updateTrain.
  repeat (match goal with
          | |- context [if ?b then _ else _] => destruct b
          | |- context [match ?o with Some _ => _ | None => _ end] => destruct o
          end; simpl);
    rewrite ?dom_insert_L; set_solver.
Qed.

Lemma forEach_from_dom stations clock trains :
  forall i m, dom m ⊆ dom (forEach_from stations clock i trains m).
Proof.
  induction trains as [|tr rest IH]; intros i m; simpl; [reflexivity|].
  etrans; [apply (updateTrain_dom stations (clock i) m tr) | apply IH].
Qed.

Lemma forEach_from_last stations clock m before (tr : Train.t) after :
  (forall t', t' ∈ after -> Train.id t' <> Train.id tr) ->
  forEach_from stations clock 0 (before ++ tr :: after) m !! Train.id tr =
  updateTrain stations (clock (length before))
    (forEach_from stations clock 0 before m) tr !! Train.id tr.
Proof.
  intros Hlast. rewrite forEach_from_app. simpl.
  rewrite forEach_from_other by exact Hlast. reflexivity.
Qed.

(** X19: after one firing of the position update, a train whose current
    station is in the station list and whose next station is not sits
    exactly at its current station. *)
Theorem position_at_station stations trains clock m before (tr : Train.t)
    after (o : Station.t) :
  trains = before ++ tr :: after ->
  (forall t', t' ∈ after -> Train.id t' <> Train.id tr) ->
  List.find (hasId (Train.currentStation tr)) stations = Some o ->
  List.find (hasId (Train.nextStation tr)) stations = None ->
  updatePositions stations trains clock m !! Train.id tr
  = Some (Station.position o).
Proof.
  intros -> Hlast Ho Hd. unfold updatePositions.
  rewrite forEach_from_last by exact Hlast.
  rewrite (updateTrain_at_station _ _ _ _ o Ho Hd).
  apply lookup_insert_eq.
Qed.

(** The train T2, standing at S2 with no next station. *)
Lemma position_at_station_T2 :
  [Fixtures.T1; Fixtures.T2] = [Fixtures.T1] ++ Fixtures.T2 :: [] /\
  (forall t', t' ∈ @nil Train.t -> Train.id t' <> Train.id Fixtures.T2) /\
  List.find (hasId (Train.currentStation Fixtures.T2))
    [Fixtures.S1; Fixtures.S2] = Some Fixtures.S2 /\
  List.find (hasId (Train.nextStation Fixtures.T2))
    [Fixtures.S1; Fixtures.S2] = None /\
  updatePositions [Fixtures.S1; Fixtures.S2] [Fixtures.T1; Fixtures.T2]
    Fixtures.mid_cycle ∅ !! "T2"%string = Some {| x := 10; y := 0 |}.
Proof.
  assert (Hlast : forall t', t' ∈ @nil Train.t ->
                             Train.id t' <> Train.id Fixtures.T2).
  { intros t' Ht'. inversion Ht'. }
  split_and!; [reflexivity | exact Hlast | reflexivity | reflexivity |].
  apply (position_at_station [Fixtures.S1; Fixtures.S2]
           [Fixtures.T1; Fixtures.T2] Fixtures.mid_cycle ∅
           [Fixtures.T1] Fixtures.T2 [] Fixtures.S2);
    [reflexivity | exact Hlast | reflexivity | reflexivity].
Defined.

Ltac ordinary_id :=
  unfold ordinary, inheritedKeys; intros Hin;
  repeat (apply elem_of_cons in Hin as [Hin|Hin]; [discriminate Hin|]);
  inversion Hin.

(** X20: the position update never forgets a train: when the ids of the
    trains and of the stored positions are ordinary ones (none is the name
    of a property that objects inherit, such as ['__proto__']), every id
    that has a stored position before a firing has one after it, whether or
    not the train is still in the list. *)
Theorem updatePositions_never_forgets stations trains clock m :
  (forall t', t' ∈ trains -> ordinary (Train.id t')) ->
  (forall k, k ∈ dom m -> ordinary k) ->
  dom m ⊆ dom (updatePositions stations trains clock m).
Proof. intros _ _. apply forEach_from_dom. Qed.

(** The trains T1 and T2 on a map that remembers the train T3. *)
Lemma updatePositions_never_forgets_T3 :
  (forall t', t' ∈ [Fixtures.T1; Fixtures.T2] -> ordinary (Train.id t')) /\
  (forall k, k ∈ dom ({[ "T3"%string := {| x := 3; y := 4 |} ]}
                       : gmap string Point) -> ordinary k) /\
  dom ({[ "T3"%string := {| x := 3; y := 4 |} ]} : gmap string Point) ⊆
  dom (updatePositions [Fixtures.S1; Fixtures.S2] [Fixtures.T1; Fixtures.T2]
         Fixtures.mid_cycle {[ "T3"%string := {| x := 3; y := 4 |} ]}).
Proof.
  assert (Hids : forall t', t' ∈ [Fixtures.T1; Fixtures.T2] ->
                            ordinary (Train.id t')).
  { intros t' Ht'. apply elem_of_cons in Ht' as [->|Ht']; [ordinary_id|].
    apply list_elem_of_singleton in Ht' as ->. ordinary_id. }
  assert (Hkeys : forall k,
            k ∈ dom ({[ "T3"%string := {| x := 3; y := 4 |} ]}
                     : gmap string Point) -> ordinary k).
  { intros k Hk. rewrite dom_singleton_L in Hk.
    apply elem_of_singleton in Hk as ->. ordinary_id. }
  split; [exact Hids|]. split; [exact Hkeys|].
  apply (updatePositions_never_forgets [Fixtures.S1; Fixtures.S2]
           [Fixtures.T1; Fixtures.T2] Fixtures.mid_cycle
           {[ "T3"%string := {| x := 3; y := 4 |} ]} Hids Hkeys).
Defined.

Lemma forEach_from_unresolved stations clock trains (k : string) :
  (forall t', t' ∈ trains -> Train.id t' = k ->
     List.find (hasId (Train.currentStation t')) stations = None) ->
  forall i m, forEach_from stations clock i trains m !! k = m !! k.
Proof.
  induction trains as [|tr rest IH]; intros Hk i m; simpl; [reflexivity|].
  rewrite IH.
  - destruct (decide (Train.id tr = k)) as [Heq|Hne].
    + rewrite updateTrain_unresolved; [reflexivity|].
      apply Hk; [apply list_elem_of_here | exact Heq].
    + by apply updateTrain_other.
  - intros t' Ht'. apply Hk. by apply list_elem_of_further.
Qed.

(** X21: when the ids of the trains are ordinary ones, a firing of the
    position update leaves the stored position of an ordinary id as it was,
    present or absent, if every train of the list with that id has a
    current station that is not in the station list; so it does in
    particular for an id that no train of the list carries. *)
Theorem updatePositions_unresolved_unchanged stations trains clock m
    (k : string) :
  (forall t', t' ∈ trains -> ordinary (Train.id t')) ->
  ordinary k ->
  (forall t', t' ∈ trains -> Train.id t' = k ->
     List.find (hasId (Train.currentStation t')) stations = None) ->
  updatePositions stations trains clock m !! k = m !! k.
Proof. intros _ _ Hk. apply forEach_from_unresolved, Hk. Qed.

(** The train T3, whose current station S9 is not on the map, keeps the
    position it was given earlier. *)
Lemma updatePositions_unresolved_T3 :
  (forall t', t' ∈ [Fixtures.T1; Fixtures.T3] -> ordinary (Train.id t')) /\
  ordinary "T3" /\
  (forall t', t' ∈ [Fixtures.T1; Fixtures.T3] -> Train.id t' = "T3"%string ->
     List.find (hasId (Train.currentStation t')) [Fixtures.S1; Fixtures.S2]
     = None) /\
  updatePositions [Fixtures.S1; Fixtures.S2] [Fixtures.T1; Fixtures.T3]
    Fixtures.mid_cycle {[ "T3"%string := {| x := 3; y := 4 |} ]} !! "T3"%string
  = Some {| x := 3; y := 4 |}.
Proof.
  assert (Hids : forall t', t' ∈ [Fixtures.T1; Fixtures.T3] ->
                            ordinary (Train.id t')).
  { intros t' Ht'. apply elem_of_cons in Ht' as [->|Ht']; [ordinary_id|].
    apply list_elem_of_singleton in Ht' as ->. ordinary_id. }
  assert (Hk : ordinary "T3") by ordinary_id.
  assert (H : forall t', t' ∈ [Fixtures.T1; Fixtures.T3] ->
                Train.id t' = "T3"%string ->
                List.find (hasId (Train.currentStation t'))
                  [Fixtures.S1; Fixtures.S2] = None).
  { intros t' Ht' Hid.
    apply elem_of_cons in Ht' as [->|Ht']; [discriminate Hid|].
    apply list_elem_of_singleton in Ht' as ->. reflexivity. }
  split; [exact Hids|]. split; [exact Hk|]. split; [exact H|].
  rewrite (updatePositions_unresolved_unchanged [Fixtures.S1; Fixtures.S2]
             [Fixtures.T1; Fixtures.T3] Fixtures.mid_cycle
             {[ "T3"%string := {| x := 3; y := 4 |} ]} "T3" Hids Hk H).
  apply lookup_singleton_eq.
Defined.





End MapPositions.
